(** * Sunday's Chicken: record lifecycle and metrics derivation

    A shallow embedding of [src/frontend/utils/calculations.ts],
    [src/frontend/components/PurchaseForm.tsx] and
    [src/frontend/components/SalesForm.tsx].

    A JavaScript [number] is an IEEE 754 binary64 value; it is modelled by
    Rocq's primitive [float], which is the same format with the same
    round-to-nearest-even operations.  An optional field ([x?: number]) is an
    [option].  The error object of a form is a finite map from the field name
    to its message. *)

From Stdlib Require Import ZArith Bool Ascii String Lia Floats Zpower.
From Stdlib Require Uint63.
From Stdlib Require Import DecimalString.
From stdpp Require Import base option strings gmap.

Local Open Scope float_scope.

(** ** JavaScript primitives used by the source *)

Module JS.

(** [ToBoolean] on a number: [+0], [-0] and [NaN] are falsy. *)
Definition falsy (v : float) : bool := is_zero v || is_nan v.

(** [x || 0] where [x : number | undefined]. *)
Definition orZero (x : option float) : float :=
  match x with
  | Some v => if falsy v then 0 else v
  | None => 0
  end.

(** [Number(x) || 0] on a number that is always present. *)
Definition numOrZero (v : float) : float := if falsy v then 0 else v.

(** [s || d] where [s : string | undefined]: the empty string is falsy. *)
Definition strOr (s : option string) (d : string) : string :=
  match s with
  | Some v => if decide (v = EmptyString) then d else v
  | None => d
  end.

(** [!s] on a string. *)
Definition strEmpty (s : string) : bool := bool_decide (s = EmptyString).

(** [a > b] on numbers. *)
Definition gtb (a b : float) : bool := b <? a.

(** [Number.isInteger]: finite and without fractional part. *)
Definition isInteger (v : float) : bool :=
  match Prim2SF v with
  | S754_zero _ => true
  | S754_finite _ m e =>
      if (0 <=? e)%Z then true
      else (Z.pos m mod 2 ^ (- e) =? 0)%Z
  | _ => false
  end.

End JS.

(** ** The record ([types.ts]) *)

Module Types.

Record WeeklyRecord := mkRecord {
  id : string;
  weekDate : string;
  createdAt : option string;
  salesCompletedAt : option string;
  totalHens : float;
  totalLiveWeight : float;
  purchaseRate : float;
  totalPurchaseCost : float;
  isSalesEntryComplete : bool;
  sellingPrice : option float;
  cashCollected : option float;
  upiCollected : option float;
  expenseTea : option float;
  expenseFuel : option float;
  totalExpenses : option float;
  totalRevenue : option float;
  meatSold : option float;
  wastage : option float;
  wastagePercentage : option float;
  netProfit : option float;
  profitPerHen : option float;
  profitPerKg : option float
}.

End Types.
Export Types.

(** ** Metrics derivation ([calculations.ts]) *)

Definition calculateRecordMetrics (record : WeeklyRecord) : WeeklyRecord :=
  let totalPurchaseCost' := totalLiveWeight record * purchaseRate record in
  if negb (isSalesEntryComplete record) then
    (* { ...record, totalPurchaseCost } *)
    {| id := id record;
       weekDate := weekDate record;
       createdAt := createdAt record;
       salesCompletedAt := salesCompletedAt record;
       totalHens := totalHens record;
       totalLiveWeight := totalLiveWeight record;
       purchaseRate := purchaseRate record;
       isSalesEntryComplete := isSalesEntryComplete record;
       sellingPrice := sellingPrice record;
       cashCollected := cashCollected record;
       upiCollected := upiCollected record;
       expenseTea := expenseTea record;
       expenseFuel := expenseFuel record;
       totalExpenses := totalExpenses record;
       totalRevenue := totalRevenue record;
       meatSold := meatSold record;
       wastage := wastage record;
       wastagePercentage := wastagePercentage record;
       netProfit := netProfit record;
       profitPerHen := profitPerHen record;
       profitPerKg := profitPerKg record;
       totalPurchaseCost := totalPurchaseCost' |}
  else
    let sellingPrice' := JS.orZero (sellingPrice record) in
    let cash := JS.orZero (cashCollected record) in
    let upi := JS.orZero (upiCollected record) in
    let expenseTea' := JS.orZero (expenseTea record) in
    let expenseFuel' := JS.orZero (expenseFuel record) in
    let totalRevenue' := cash + upi in
    let meatSold' :=
      if JS.gtb sellingPrice' 0 then totalRevenue' / sellingPrice' else 0 in
    let wastage' := totalLiveWeight record - meatSold' in
    let wastagePercentage' :=
      if JS.gtb (totalLiveWeight record) 0
      then (wastage' / totalLiveWeight record) * 100
      else 0 in
    let totalExpenses' := expenseTea' + expenseFuel' in
    let netProfit' := totalRevenue' - (totalPurchaseCost' + totalExpenses') in
    let profitPerHen' :=
      if JS.gtb (totalHens record) 0 then netProfit' / totalHens record
      else 0 in
    let profitPerKg' :=
      if JS.gtb meatSold' 0 then netProfit' / meatSold' else 0 in
    (* { ...record, totalPurchaseCost, totalRevenue, ..., profitPerKg } *)
    {| id := id record;
       weekDate := weekDate record;
       createdAt := createdAt record;
       salesCompletedAt := salesCompletedAt record;
       totalHens := totalHens record;
       totalLiveWeight := totalLiveWeight record;
       purchaseRate := purchaseRate record;
       isSalesEntryComplete := isSalesEntryComplete record;
       sellingPrice := sellingPrice record;
       cashCollected := cashCollected record;
       upiCollected := upiCollected record;
       expenseTea := expenseTea record;
       expenseFuel := expenseFuel record;
       totalPurchaseCost := totalPurchaseCost';
       totalRevenue := Some totalRevenue';
       meatSold := Some meatSold';
       wastage := Some wastage';
       wastagePercentage := Some wastagePercentage';
       totalExpenses := Some totalExpenses';
       netProfit := Some netProfit';
       profitPerHen := Some profitPerHen';
       profitPerKg := Some profitPerKg' |}.

(** ** Form state shared by both forms

    [newErrors] is an object filled field by field while [isValid] is
    cleared; [reject] is one such [newErrors.f = msg; isValid = false]. *)

Abbreviation errors := (gmap string string).

Definition reject (field msg : string) (st : errors * bool) : errors * bool :=
  (<[field := msg]> st.1, false).

Definition when (c : bool) (f : errors * bool -> errors * bool)
    (st : errors * bool) : errors * bool :=
  if c then f st else st.

(** What one call of [handleSubmit] leaves behind: the [errors] state, the
    [showSuccess] state and the record handed to [onSave], if any. *)
Record outcome := mkOutcome {
  shownErrors : errors;
  showSuccess : bool;
  onSave : option WeeklyRecord
}.

(** ** Purchase form ([PurchaseForm.tsx]) *)

Module PurchaseForm.

Record formData := mkFormData {
  date : string;
  totalHens : string;
  totalLiveWeight : string;
  purchaseRate : string
}.

Section WithNumber.
(** [Number(...)] applied to the text of an input. *)
Variable Number : string -> float.

Definition validate (fd : formData) : errors * bool :=
  let st := (∅, true) in
  let st := when (JS.strEmpty (date fd))
              (reject "date" "Date is required") st in
  let hens := Number (totalHens fd) in
  let st := when (JS.strEmpty (totalHens fd) || (hens <=? 0)
                  || negb (JS.isInteger hens))
              (reject "totalHens" "Must be a positive whole number") st in
  let weight := Number (totalLiveWeight fd) in
  let st := when (JS.strEmpty (totalLiveWeight fd) || (weight <=? 0))
              (reject "totalLiveWeight" "Weight must be greater than 0")
              st in
  let rate := Number (purchaseRate fd) in
  let st := when (JS.strEmpty (purchaseRate fd) || (rate <=? 0))
              (reject "purchaseRate" "Rate must be greater than 0") st in
  st.

(** The record built at lines 87-106; [now] is
    [new Date().toISOString()]. *)
Definition buildRecord (existingRecord : option WeeklyRecord)
    (fd : formData) (now : string) : WeeklyRecord :=
  {| Types.id := JS.strOr (Types.id <$> existingRecord) "";
     Types.weekDate := date fd;
     Types.totalHens := Number (totalHens fd);
     Types.totalLiveWeight := Number (totalLiveWeight fd);
     Types.purchaseRate := Number (purchaseRate fd);
     Types.totalPurchaseCost := 0;
     Types.createdAt :=
       Some (JS.strOr (existingRecord ≫= Types.createdAt) now);
     Types.isSalesEntryComplete :=
       default false (Types.isSalesEntryComplete <$> existingRecord)
       || false;
     Types.salesCompletedAt := existingRecord ≫= Types.salesCompletedAt;
     Types.sellingPrice := existingRecord ≫= Types.sellingPrice;
     Types.cashCollected := existingRecord ≫= Types.cashCollected;
     Types.upiCollected := existingRecord ≫= Types.upiCollected;
     Types.expenseTea := existingRecord ≫= Types.expenseTea;
     Types.expenseFuel := existingRecord ≫= Types.expenseFuel;
     Types.totalExpenses := None;
     Types.totalRevenue := None;
     Types.meatSold := None;
     Types.wastage := None;
     Types.wastagePercentage := None;
     Types.netProfit := None;
     Types.profitPerHen := None;
     Types.profitPerKg := None |}.

Definition handleSubmit (existingRecord : option WeeklyRecord)
    (fd : formData) (now : string) : outcome :=
  let '(newErrors, isValid) := validate fd in
  if negb isValid then mkOutcome newErrors false None
  else mkOutcome newErrors true (Some (buildRecord existingRecord fd now)).

End WithNumber.

End PurchaseForm.

(** ** Sales form ([SalesForm.tsx]) *)

Module SalesForm.

Record formData := mkFormData {
  totalHens : string;
  totalLiveWeight : string;
  purchaseRate : string;
  sellingPrice : string;
  cashCollected : string;
  upiCollected : string;
  expenseTea : string;
  expenseFuel : string
}.

Section WithNumber.
Variable Number : string -> float.

Definition validate (fd : formData) : errors * bool :=
  let st := (∅, true) in
  let hens := Number (totalHens fd) in
  let st := when (JS.strEmpty (totalHens fd) || (hens <=? 0)
                  || negb (JS.isInteger hens))
              (reject "totalHens" "Must be a positive whole number") st in
  let weight := Number (totalLiveWeight fd) in
  let st := when (JS.strEmpty (totalLiveWeight fd) || (weight <=? 0))
              (reject "totalLiveWeight" "Weight must be > 0") st in
  let rate := Number (purchaseRate fd) in
  let st := when (JS.strEmpty (purchaseRate fd) || (rate <=? 0))
              (reject "purchaseRate" "Rate must be > 0") st in
  let price := Number (sellingPrice fd) in
  let st := when (JS.strEmpty (sellingPrice fd) || (price <=? 0))
              (reject "sellingPrice" "Price must be greater than 0") st in
  let st := when (Number (cashCollected fd) <? 0)
              (reject "cashCollected" "Cannot be negative") st in
  let st := when (Number (upiCollected fd) <? 0)
              (reject "upiCollected" "Cannot be negative") st in
  let st := when (JS.gtb price 0
                  && (Number (cashCollected fd) + Number (upiCollected fd)
                      <=? 0))
              (reject "general"
                 "Total revenue (Cash + UPI) must be greater than 0") st in
  let st := when (Number (expenseTea fd) <? 0)
              (reject "expenseTea" "Invalid") st in
  let st := when (Number (expenseFuel fd) <? 0)
              (reject "expenseFuel" "Invalid") st in
  st.

(** [updatedRecord], lines 105-120: the record spread, then the purchase
    details, the flag, the timestamp and the sales details. *)
Definition updatedRecord (record : WeeklyRecord) (fd : formData)
    (now : string) : WeeklyRecord :=
  {| Types.id := Types.id record;
     Types.weekDate := Types.weekDate record;
     Types.createdAt := Types.createdAt record;
     Types.totalPurchaseCost := Types.totalPurchaseCost record;
     Types.totalExpenses := Types.totalExpenses record;
     Types.totalRevenue := Types.totalRevenue record;
     Types.meatSold := Types.meatSold record;
     Types.wastage := Types.wastage record;
     Types.wastagePercentage := Types.wastagePercentage record;
     Types.netProfit := Types.netProfit record;
     Types.profitPerHen := Types.profitPerHen record;
     Types.profitPerKg := Types.profitPerKg record;
     Types.totalHens := Number (totalHens fd);
     Types.totalLiveWeight := Number (totalLiveWeight fd);
     Types.purchaseRate := Number (purchaseRate fd);
     Types.isSalesEntryComplete := true;
     Types.salesCompletedAt := Some now;
     Types.sellingPrice := Some (Number (sellingPrice fd));
     Types.cashCollected := Some (Number (cashCollected fd));
     Types.upiCollected := Some (Number (upiCollected fd));
     Types.expenseTea := Some (Number (expenseTea fd));
     Types.expenseFuel := Some (Number (expenseFuel fd)) |}.

Definition handleSubmit (record : WeeklyRecord) (fd : formData)
    (now : string) : outcome :=
  let '(newErrors, isValid) := validate fd in
  if negb isValid then mkOutcome newErrors false None
  else mkOutcome newErrors true (Some (updatedRecord record fd now)).

(** The [onChange] of the live-weight input:
    [setFormData({...formData, totalLiveWeight: e.target.value})]. *)
Definition onChangeLiveWeight (fd : formData) (value : string) : formData :=
  {| totalHens := totalHens fd;
     purchaseRate := purchaseRate fd;
     sellingPrice := sellingPrice fd;
     cashCollected := cashCollected fd;
     upiCollected := upiCollected fd;
     expenseTea := expenseTea fd;
     expenseFuel := expenseFuel fd;
     totalLiveWeight := value |}.

(** Lines 131-133 and the condition of the warning, line 286. *)
Definition revenue (fd : formData) : float :=
  Number (cashCollected fd) + Number (upiCollected fd).

Definition estMeatSold (fd : formData) : float :=
  if JS.gtb (Number (sellingPrice fd)) 0
  then revenue fd / Number (sellingPrice fd)
  else 0.

Definition currentLiveWeight (fd : formData) : float :=
  JS.numOrZero (Number (totalLiveWeight fd)).

Definition warningShown (fd : formData) : bool :=
  JS.gtb (estMeatSold fd) (currentLiveWeight fd).

End WithNumber.

End SalesForm.

(** ** The operations a stored record goes through

    A purchase edit and a sales submission hand their record to [onSave]
    (nothing is handed over when validation rejects); [saveRecord] runs the
    derivation on whatever it is given. *)

Module Lifecycle.

Inductive operation :=
| PurchaseEdit (fd : PurchaseForm.formData) (now : string)
| CompleteSales (fd : SalesForm.formData) (now : string)
| DeriveMetrics.

Section WithNumber.
Variable Number : string -> float.

Definition apply (o : operation) (r : WeeklyRecord)
    : option WeeklyRecord :=
  match o with
  | PurchaseEdit fd now =>
      onSave (PurchaseForm.handleSubmit Number (Some r) fd now)
  | CompleteSales fd now =>
      onSave (SalesForm.handleSubmit Number r fd now)
  | DeriveMetrics => Some (calculateRecordMetrics r)
  end.

(** [run os r]: the operations of [os] in order, an operation that saves
    nothing leaving the record as it is. *)
Fixpoint run (os : list operation) (r : WeeklyRecord) : WeeklyRecord :=
  match os with
  | [] => r
  | o :: os' => run os' (default r (apply o r))
  end.

End WithNumber.

End Lifecycle.

(** ** Numeric text

    [Number] on plain decimal text: an optional sign, digits, an optional
    fraction.  The empty text is [0].  For a literal of at most fifteen
    digits the mantissa and the power of ten are exactly represented and
    their quotient is correctly rounded, so the value is the one JavaScript
    computes.  Beyond that the definition is not [Number]: exponent
    notation, surrounding white space and [Infinity] are answered with
    [NaN] here, and longer literals are not correctly rounded.  The general
    statements are therefore made for an arbitrary
    [Number : string -> float]; [Decimal.Number] is used in closed examples
    on short plain literals only. *)

Module Decimal.

Definition digitOf (c : ascii) : option Z :=
  let n := Z.of_N (N_of_ascii c) in
  if (48 <=? n)%Z && (n <=? 57)%Z then Some (n - 48)%Z else None.

(** Reads the leading digits of [s] onto the mantissa [m]; returns the
    mantissa, the number of digits read and the rest of the text. *)
Fixpoint digits (s : string) (m : Z) (k : nat) : Z * nat * string :=
  match s with
  | String c s' =>
      match digitOf c with
      | Some d => digits s' (10 * m + d)%Z (S k)
      | None => (m, k, s)
      end
  | EmptyString => (m, k, s)
  end.

Definition ofZ (m : Z) : float := of_uint63 (Uint63.of_Z m).

Definition unsignedNumber (s : string) : float :=
  let '(m, k, rest) := digits s 0%Z 0%nat in
  match rest with
  | EmptyString => if Nat.eqb k 0 then nan else ofZ m
  | String "."%char rest' =>
      let '(m', k', rest'') := digits rest' m 0%nat in
      match rest'' with
      | EmptyString =>
          if Nat.eqb (k + k') 0 then nan
          else ofZ m' / ofZ (10 ^ Z.of_nat k')
      | _ => nan
      end
  | _ => nan
  end.

Definition Number (s : string) : float :=
  match s with
  | EmptyString => 0
  | String "-"%char s' => - unsignedNumber s'
  | String "+"%char s' => unsignedNumber s'
  | _ => unsignedNumber s
  end.

End Decimal.

(** ** What the checks of [validate] let through

    Each predicate is the negation of one [if] of the source: a field whose
    check is [!text || n <= 0] passes when the text is not empty and its
    number is not [<= 0]; a field whose check is [n < 0] passes when its
    number is not [< 0]. *)

Module Checks.

Section WithNumber.
Variable Number : string -> float.

Definition positive (text : string) : Prop :=
  text <> "" /\ (Number text <=? 0) = false.

Definition positiveWhole (text : string) : Prop :=
  text <> "" /\ (Number text <=? 0) = false
  /\ JS.isInteger (Number text) = true.

Definition notNegative (text : string) : Prop :=
  (Number text <? 0) = false.

Definition purchase (fd : PurchaseForm.formData) : Prop :=
  PurchaseForm.date fd <> ""
  /\ positiveWhole (PurchaseForm.totalHens fd)
  /\ positive (PurchaseForm.totalLiveWeight fd)
  /\ positive (PurchaseForm.purchaseRate fd).

Definition sales (fd : SalesForm.formData) : Prop :=
  positiveWhole (SalesForm.totalHens fd)
  /\ positive (SalesForm.totalLiveWeight fd)
  /\ positive (SalesForm.purchaseRate fd)
  /\ positive (SalesForm.sellingPrice fd)
  /\ notNegative (SalesForm.cashCollected fd)
  /\ notNegative (SalesForm.upiCollected fd)
  /\ (JS.gtb (Number (SalesForm.sellingPrice fd)) 0
      && (Number (SalesForm.cashCollected fd)
          + Number (SalesForm.upiCollected fd) <=? 0)) = false
  /\ notNegative (SalesForm.expenseTea fd)
  /\ notNegative (SalesForm.expenseFuel fd).

(** No number of the form is [NaN], apart from the hen count, which
    [Number.isInteger] checks by itself. *)
Definition numericPurchase (fd : PurchaseForm.formData) : Prop :=
  is_nan (Number (PurchaseForm.totalLiveWeight fd)) = false
  /\ is_nan (Number (PurchaseForm.purchaseRate fd)) = false.

Definition numericSales (fd : SalesForm.formData) : Prop :=
  is_nan (Number (SalesForm.totalLiveWeight fd)) = false
  /\ is_nan (Number (SalesForm.purchaseRate fd)) = false
  /\ is_nan (Number (SalesForm.sellingPrice fd)) = false
  /\ is_nan (Number (SalesForm.cashCollected fd)) = false
  /\ is_nan (Number (SalesForm.upiCollected fd)) = false
  /\ is_nan (Number (SalesForm.expenseTea fd)) = false
  /\ is_nan (Number (SalesForm.expenseFuel fd)) = false.

End WithNumber.

End Checks.

(** ** The validation rules in the words of the specification

    Purchase stage: the week date is present, [totalHens] is a positive
    integer, [totalLiveWeight > 0], [purchaseRate > 0].  Sales stage:
    [sellingPrice > 0], collections [>= 0] with a sum [> 0] when a selling
    price is set, expenses [>= 0]. *)

Module SpecRules.

Section WithNumber.
Variable Number : string -> float.



End WithNumber.

End SpecRules.

(** ** Vocabulary on the specification of binary64 *)

Module SF64.

(** The least exponent of a binary64 value, [3 - emax - prec]. *)
Definition emin64 : Z := -1074.

(** A finite non-zero value of sign [s], or the infinity of that sign. *)
Definition signed (s : bool) (x : spec_float) : Prop :=
  match x with
  | S754_finite s' _ _ | S754_infinity s' => s' = s
  | _ => False
  end.

(** Equal up to the sign of a zero. *)
Definition zeq (a b : spec_float) : Prop :=
  match a, b with
  | S754_zero _, S754_zero _ => True
  | _, _ => a = b
  end.

End SF64.

(** ** Records and forms used as examples *)

Module Examples.

(** hens=100, liveWeight=150, rate=80, purchase stage. *)
Definition purchaseOnly : WeeklyRecord :=
  {| id := "week-1"; weekDate := "2025-01-04";
     createdAt := Some "2025-01-04T06:30:00.000Z";
     salesCompletedAt := None;
     totalHens := 100; totalLiveWeight := 150; purchaseRate := 80;
     totalPurchaseCost := 0; isSalesEntryComplete := false;
     sellingPrice := None; cashCollected := None; upiCollected := None;
     expenseTea := None; expenseFuel := None;
     totalExpenses := None; totalRevenue := None; meatSold := None;
     wastage := None; wastagePercentage := None; netProfit := None;
     profitPerHen := None; profitPerKg := None |}.

(** The same week with its sales entered; [sales p c u t f] has selling
    price [p], collections [c] and [u], expenses [t] and [f]. *)
Definition sales (weight : float) (p c u t f : option float)
    : WeeklyRecord :=
  {| id := "week-1"; weekDate := "2025-01-04";
     createdAt := Some "2025-01-04T06:30:00.000Z";
     salesCompletedAt := Some "2025-01-05T10:00:00.000Z";
     totalHens := 100; totalLiveWeight := weight; purchaseRate := 80;
     totalPurchaseCost := 0; isSalesEntryComplete := true;
     sellingPrice := p; cashCollected := c; upiCollected := u;
     expenseTea := t; expenseFuel := f;
     totalExpenses := None; totalRevenue := None; meatSold := None;
     wastage := None; wastagePercentage := None; netProfit := None;
     profitPerHen := None; profitPerKg := None |}.

(** liveWeight=150, sellingPrice=100, cash=6000, upi=4000, tea=50,
    fuel=100. *)
Definition worked : WeeklyRecord :=
  sales 150 (Some 100) (Some 6000) (Some 4000) (Some 50) (Some 100).

(** sellingPrice=0, cash=500, upi=0. *)
Definition degenerate : WeeklyRecord :=
  sales 150 (Some 0) (Some 500) (Some 0) None None.

(** liveWeight=50, sellingPrice=10, cash=600, upi=0. *)
Definition oversold : WeeklyRecord :=
  sales 50 (Some 10) (Some 600) (Some 0) None None.

Definition purchaseForm (weight : string) : PurchaseForm.formData :=
  PurchaseForm.mkFormData "2025-01-04" "100" weight "80".

Definition salesForm (weight price cash upi : string)
    : SalesForm.formData :=
  SalesForm.mkFormData "100" weight "80" price cash upi "" "".

Definition oversoldForm : SalesForm.formData :=
  salesForm "50" "10" "600" "0".

End Examples.

(** The sales-stage computed fields are all absent. *)
Definition salesMetricsUnset (r : WeeklyRecord) : Prop :=
  totalRevenue r = None /\ meatSold r = None /\ wastage r = None
  /\ wastagePercentage r = None /\ totalExpenses r = None
  /\ netProfit r = None /\ profitPerHen r = None /\ profitPerKg r = None.

(** ** Views of a record

    The raw fields are the ones the derivation reads, the computed fields
    the ones it writes. *)

Module Fields.

Definition sameRaw (a b : WeeklyRecord) : Prop :=
  totalHens a = totalHens b
  /\ totalLiveWeight a = totalLiveWeight b
  /\ purchaseRate a = purchaseRate b
  /\ isSalesEntryComplete a = isSalesEntryComplete b
  /\ sellingPrice a = sellingPrice b
  /\ cashCollected a = cashCollected b
  /\ upiCollected a = upiCollected b
  /\ expenseTea a = expenseTea b
  /\ expenseFuel a = expenseFuel b.

Definition sameComputed (a b : WeeklyRecord) : Prop :=
  totalPurchaseCost a = totalPurchaseCost b
  /\ totalExpenses a = totalExpenses b
  /\ totalRevenue a = totalRevenue b
  /\ meatSold a = meatSold b
  /\ wastage a = wastage b
  /\ wastagePercentage a = wastagePercentage b
  /\ netProfit a = netProfit b
  /\ profitPerHen a = profitPerHen b
  /\ profitPerKg a = profitPerKg b.

(** Every sales-stage computed field is present. *)
Definition salesMetricsSet (r : WeeklyRecord) : Prop :=
  is_Some (totalRevenue r) /\ is_Some (meatSold r) /\ is_Some (wastage r)
  /\ is_Some (wastagePercentage r) /\ is_Some (totalExpenses r)
  /\ is_Some (netProfit r) /\ is_Some (profitPerHen r)
  /\ is_Some (profitPerKg r).

(** The sales-stage computed fields are present exactly on a sales-complete
    record. *)
Definition consistent (r : WeeklyRecord) : Prop :=
  if isSalesEntryComplete r then salesMetricsSet r else salesMetricsUnset r.

(** No sales input is present. *)
Definition salesInputsUnset (r : WeeklyRecord) : Prop :=
  salesCompletedAt r = None /\ sellingPrice r = None
  /\ cashCollected r = None /\ upiCollected r = None
  /\ expenseTea r = None /\ expenseFuel r = None.

End Fields.

(** ** JavaScript text primitives

    A string is compared code unit by code unit; the texts compared in this
    program are ISO dates, which are ASCII. *)

Module JSText.

(** [a < b] on strings. *)
Definition strLt (a b : string) : bool := String.ltb a b.

(** [String(n)] for an integer [n >= 0]. *)
Definition numberToString (n : N) : string :=
  NilZero.string_of_uint (N.to_uint n).

(** [s.padStart(targetLength, c)] with a one-character pad. *)
Definition padStart (targetLength : nat) (padChar : ascii) (s : string)
    : string :=
  string_of_list_ascii (repeat padChar (targetLength - String.length s))
  ++ s.

End JSText.

(** ** What the purchase form shows besides its inputs
    ([PurchaseForm.tsx], lines 6-12 and 117) *)

Module PurchaseView.

(** [getTodayDate], from the local year, month ([getMonth], counted from 0)
    and day of the month of [new Date()]. *)
Definition getTodayDate (year month day : N) : string :=
  JSText.numberToString year ++ "-"
  ++ JSText.padStart 2 "0" (JSText.numberToString (month + 1)) ++ "-"
  ++ JSText.padStart 2 "0" (JSText.numberToString day).

(** The three parts of the text [getTodayDate] returns. *)
Definition yearText (y : N) : string := JSText.numberToString y.

Definition monthText (m : N) : string :=
  JSText.padStart 2 "0" (JSText.numberToString (m + 1)).

Definition dayText (d : N) : string :=
  JSText.padStart 2 "0" (JSText.numberToString d).

(** A calendar date with a four-digit year. *)
Definition calendar (year month day : N) : Prop :=
  (1000 <= year <= 9999)%N /\ (month < 12)%N /\ (1 <= day <= 31)%N.

(** The order of calendar dates. *)
Definition compareDates (y1 m1 d1 y2 m2 d2 : N) : comparison :=
  match (y1 ?= y2)%N with
  | Eq => match (m1 ?= m2)%N with
          | Eq => (d1 ?= d2)%N
          | c => c
          end
  | c => c
  end.

(** A check run over the range [lo .. lo + n]: every text [f k] has the
    given width and is below [f (k + 1)]. *)
Definition steps_ok (f : N -> string) (width : nat) (lo : N) (n : nat)
    : bool :=
  forallb
    (fun k =>
       Nat.eqb (String.length (f (lo + N.of_nat k)%N)) width
       && match String.compare (f (lo + N.of_nat k)%N)
                  (f (lo + N.of_nat (S k))%N) with
          | Lt => true
          | _ => (k =? n)%nat
          end)
    (seq 0 (S n)).

Section WithNumber.
Variable Number : string -> float.

Definition calculatedCost (fd : PurchaseForm.formData) : float :=
  JS.numOrZero (Number (PurchaseForm.totalLiveWeight fd))
  * JS.numOrZero (Number (PurchaseForm.purchaseRate fd)).

End WithNumber.

End PurchaseView.

(** ** The history list ([HistoryList], lines 340-362 and 430-431 of the
    dashboard file) *)

Module History.

Record filters := mkFilters {
  status : string;
  startDate : string;
  endDate : string;
  minProfit : string
}.

Definition clearFilters : filters := mkFilters "all" "" "" "".

(** The [onChange] of the status select:
    [setFilters({...filters, status: e.target.value})]. *)
Definition onChangeStatus (f : filters) (value : string) : filters :=
  {| status := value; startDate := startDate f; endDate := endDate f;
     minProfit := minProfit f |}.

(** The [onChange] of the minimum-profit input. *)
Definition onChangeMinProfit (f : filters) (value : string) : filters :=
  {| status := status f; startDate := startDate f; endDate := endDate f;
     minProfit := value |}.

(** Truthiness of [hasActiveFilters]. *)
Definition hasActiveFilters (f : filters) : bool :=
  negb (String.eqb (status f) "all")
  || negb (JS.strEmpty (startDate f))
  || negb (JS.strEmpty (endDate f))
  || negb (JS.strEmpty (minProfit f)).

Section WithNumber.
Variable Number : string -> float.

(** The predicate handed to [records.filter]. *)
Definition keeps (f : filters) (r : WeeklyRecord) : bool :=
  if String.eqb (status f) "completed" && negb (isSalesEntryComplete r)
  then false
  else if String.eqb (status f) "pending" && isSalesEntryComplete r
  then false
  else if negb (JS.strEmpty (startDate f))
          && JSText.strLt (weekDate r) (startDate f)
  then false
  else if negb (JS.strEmpty (endDate f))
          && JSText.strLt (endDate f) (weekDate r)
  then false
  else if negb (JS.strEmpty (minProfit f)) && isSalesEntryComplete r
          && (JS.orZero (netProfit r) <? Number (minProfit f))
  then false
  else true.

Definition filteredRecords (f : filters) (records : list WeeklyRecord)
    : list WeeklyRecord :=
  List.filter (keeps f) records.

End WithNumber.

End History.

(** ** The dashboard ([Dashboard], lines 75-91) *)

Module Dashboard.

Record totals := mkTotals {
  revenue : float;
  profit : float;
  meat : float
}.

(** One step of the [reduce]. *)
Definition add (acc : totals) (curr : WeeklyRecord) : totals :=
  if isSalesEntryComplete curr then
    {| revenue := revenue acc + JS.orZero (totalRevenue curr);
       profit := profit acc + JS.orZero (netProfit curr);
       meat := meat acc + JS.orZero (meatSold curr) |}
  else acc.

Definition lifetimeStats (records : list WeeklyRecord) : totals :=
  fold_left add records (mkTotals 0 0 0).

(** [completedRecords.find(r => r.id === selectedRecordId)
     || completedRecords[0]]. *)
Definition displayRecord (completedRecords : list WeeklyRecord)
    (selectedRecordId : string) : option WeeklyRecord :=
  match List.find (fun r => String.eqb (id r) selectedRecordId)
          completedRecords with
  | Some r => Some r
  | None => head completedRecords
  end.

End Dashboard.

(** ** Authentication ([authService.ts])

    [localStorage] is a finite map from keys to texts; [now] is
    [Date.now()]. *)

Module AuthService.

Definition STATIC_EMAIL : string := "admin@sundayschicken.com".
Definition STATIC_PASS : string := "Admin@123".
Definition TOKEN_KEY : string := "sunday_chicken_token".
Definition USER_KEY : string := "sunday_chicken_user".

Record User := mkUser {
  id : string;
  name : string;
  email : string;
  token : option string
}.

Abbreviation localStorage := (gmap string string).

Inductive outcome :=
| Returns (user : User)
| Throws (message : string).

Definition quote : string := String (ascii_of_nat 34) EmptyString.

(** A text without quotes, backslashes or control characters, as a JSON
    string. *)
Definition jsonString (s : string) : string := quote ++ s ++ quote.

(** [JSON.stringify(user)] for the user [login] builds, whose texts need no
    escaping and whose token is present. *)
Definition stringifyUser (u : User) : string :=
  "{" ++ jsonString "id" ++ ":" ++ jsonString (id u) ++ ","
  ++ jsonString "name" ++ ":" ++ jsonString (name u) ++ ","
  ++ jsonString "email" ++ ":" ++ jsonString (email u) ++ ","
  ++ jsonString "token" ++ ":" ++ jsonString (JS.strOr (token u) "") ++ "}".

Definition login (email password : string) (now : N) (ls : localStorage)
    : outcome * localStorage :=
  if String.eqb email STATIC_EMAIL && String.eqb password STATIC_PASS then
    let user :=
      {| id := "admin_user"; name := "Administrator"; email := email;
         token :=
           Some ("static_admin_token_" ++ JSText.numberToString now)%string |}
    in
    let ls := <[TOKEN_KEY := JS.strOr (token user) ""]> ls in
    let ls := <[USER_KEY := stringifyUser user]> ls in
    (Returns user, ls)
  else (Throws "Incorrect email or password", ls).

Definition logout (ls : localStorage) : localStorage :=
  delete USER_KEY (delete TOKEN_KEY ls).

Definition getAuthToken (ls : localStorage) : option string :=
  ls !! TOKEN_KEY.

Section WithParse.
(** [JSON.parse] on the stored user, taken as a total function: the throw
    on text that is no JSON and the [null] of the text [null] are not
    modelled.  The statements about [getCurrentUser] are about a storage
    without a stored user, where [JSON.parse] is not called. *)
Variable parse : string -> User.

Definition getCurrentUser (ls : localStorage) : option User :=
  match ls !! USER_KEY with
  | Some userStr => if JS.strEmpty userStr then None else Some (parse userStr)
  | None => None
  end.

End WithParse.

End AuthService.

(** ** The storage service ([storageService.ts])

    An object received from or sent to the server is a finite map from
    property names to values. *)

Module StorageService.

Inductive value :=
| VUndefined
| VNull
| VBool (b : bool)
| VNumber (n : float)
| VString (s : string).

Abbreviation object := (gmap string value).

(** [ToBoolean]. *)
Definition truthy (v : value) : bool :=
  match v with
  | VUndefined | VNull => false
  | VBool b => b
  | VNumber n => negb (JS.falsy n)
  | VString s => negb (JS.strEmpty s)
  end.

(** [o.k]: [undefined] when [o] has no property [k]. *)
Definition get (o : object) (k : string) : value :=
  default VUndefined (o !! k).

(** [a || b]. *)
Definition orElse (a b : value) : value := if truthy a then a else b.

(** [mapToFrontend]; [None] is a [data] that is [null]. *)
Definition mapToFrontend (data : option object) : option object :=
  match data with
  | None => None
  | Some data =>
      let _id := get data "_id" in
      let rest := delete "_id" data in
      (* { id: _id || data.id, ...rest }: a property of rest wins *)
      Some (rest ∪ {[ "id" := orElse _id (get data "id") ]})
  end.


(** [getHeaders], given the stored token. *)
Definition getHeaders (ls : AuthService.localStorage) : gmap string string :=
  let token := AuthService.getAuthToken ls in
  {[ "Content-Type" := "application/json";
     "Authorization" :=
       match token with
       | Some t => if JS.strEmpty t then "" else ("Bearer " ++ t)%string
       | None => ""
       end ]}.






Section WithTrim.
(** [String.prototype.trim]. *)
Variable trim : string -> string.



End WithTrim.

End StorageService.

(** ** The application shell ([App.tsx])

    The state of [App], its handlers, and what it renders.  A handler that
    awaits the server is modelled by the state it leaves once the answer is
    in: the answer of [saveRecord] ([None] when it threw, [Some None] when
    the server answered [null]) and the answer of [getRecords] inside
    [loadData] ([None] when it threw). *)

Module App.

Inductive AppView := DASHBOARD | ENTRY_PURCHASE | ENTRY_SALES | HISTORY.

Record state := mkState {
  user : option AuthService.User;
  view : AppView;
  records : list WeeklyRecord;
  loading : bool;
  error : option string;
  activeRecord : option WeeklyRecord
}.

Definition initial : state :=
  {| user := None; view := DASHBOARD; records := []; loading := true;
     error := None; activeRecord := None |}.

Definition setView (v : AppView) (st : state) : state :=
  {| user := user st; view := v; records := records st;
     loading := loading st; error := error st;
     activeRecord := activeRecord st |}.

Definition setActiveRecord (r : option WeeklyRecord) (st : state) : state :=
  {| user := user st; view := view st; records := records st;
     loading := loading st; error := error st; activeRecord := r |}.

Definition setLoading (b : bool) (st : state) : state :=
  {| user := user st; view := view st; records := records st;
     loading := b; error := error st; activeRecord := activeRecord st |}.

(** [loadData], once [getRecords] has answered. *)
Definition loadData (answer : option (list WeeklyRecord)) (st : state)
    : state :=
  match answer with
  | Some data =>
      {| user := user st; view := view st; records := data;
         loading := false; error := None; activeRecord := activeRecord st |}
  | None =>
      {| user := user st; view := view st; records := records st;
         loading := false;
         error := Some "Failed to load records. Is the backend running?";
         activeRecord := activeRecord st |}
  end.

Definition handleLoginSuccess (u : AuthService.User)
    (answer : option (list WeeklyRecord)) (st : state) : state :=
  loadData answer
    {| user := Some u; view := view st; records := records st;
       loading := loading st; error := error st;
       activeRecord := activeRecord st |}.

(** The effect run on mount, given [getCurrentUser()]. *)
Definition mount (currentUser : option AuthService.User)
    (answer : option (list WeeklyRecord)) (st : state) : state :=
  match currentUser with
  | Some u => handleLoginSuccess u answer st
  | None => setLoading false st
  end.

Definition handleLogout (st : state) : state :=
  {| user := None; view := DASHBOARD; records := [];
     loading := loading st; error := error st;
     activeRecord := activeRecord st |}.

Definition handleSavePurchase (saved : option (option WeeklyRecord))
    (answer : option (list WeeklyRecord)) (st : state) : state :=
  match saved with
  | Some savedRecord =>
      setView ENTRY_SALES (setActiveRecord savedRecord (loadData answer st))
  | None => setLoading false st
  end.

Definition handleSaveSales (saved : bool)
    (answer : option (list WeeklyRecord)) (st : state) : state :=
  if saved then setActiveRecord None (setView DASHBOARD (loadData answer st))
  else setLoading false st.

Definition handleDelete (deleted : bool)
    (answer : option (list WeeklyRecord)) (st : state) : state :=
  if deleted then loadData answer st else st.

Definition startPurchaseEntry (st : state) : state :=
  setView ENTRY_PURCHASE (setActiveRecord None st).

(** The state and the text of the alert, if one is shown. *)
Definition startSalesEntry (st : state) : state * option string :=
  match List.find (fun r => negb (isSalesEntryComplete r)) (records st) with
  | Some incomplete =>
      (setView ENTRY_SALES (setActiveRecord (Some incomplete) st), None)
  | None =>
      (setView ENTRY_PURCHASE st,
       Some "No pending Purchase records found. Please enter Purchase data first.")
  end.

Definition handleEdit (record : WeeklyRecord) (st : state) : state :=
  let st := setActiveRecord (Some record) st in
  if isSalesEntryComplete record then setView ENTRY_SALES st
  else setView ENTRY_PURCHASE st.

Definition handleHistoryContinue (record : WeeklyRecord) (st : state)
    : state :=
  setView ENTRY_SALES (setActiveRecord (Some record) st).

(** What the component returns. *)
Inductive screen :=
| AuthScreen
| Spinner
| ErrorScreen (message : string)
| DashboardScreen (records : list WeeklyRecord)
| HistoryScreen (records : list WeeklyRecord)
| PurchaseScreen (existingRecord : option WeeklyRecord)
| SalesScreen (record : WeeklyRecord)
| Nothing.

Definition render (st : state) : screen :=
  match user st with
  | None => AuthScreen
  | Some _ =>
      if loading st then Spinner
      else match error st with
           | Some message => ErrorScreen message
           | None =>
               match view st with
               | DASHBOARD => DashboardScreen (records st)
               | HISTORY => HistoryScreen (records st)
               | ENTRY_PURCHASE => PurchaseScreen (activeRecord st)
               | ENTRY_SALES =>
                   match activeRecord st with
                   | Some record => SalesScreen record
                   | None => Nothing
                   end
               end
           end
  end.

(** Everything that can happen to the state. *)
Inductive event :=
| Mount (currentUser : option AuthService.User)
    (answer : option (list WeeklyRecord))
| LoginSuccess (u : AuthService.User) (answer : option (list WeeklyRecord))
| Logout
| Loaded (answer : option (list WeeklyRecord))
| Navigate (v : AppView)
| SavePurchase (saved : option (option WeeklyRecord))
    (answer : option (list WeeklyRecord))
| SaveSales (saved : bool) (answer : option (list WeeklyRecord))
| Delete (deleted : bool) (answer : option (list WeeklyRecord))
| StartPurchaseEntry
| StartSalesEntry
| Edit (record : WeeklyRecord)
| HistoryContinue (record : WeeklyRecord).

Definition step (st : state) (e : event) : state :=
  match e with
  | Mount currentUser answer => mount currentUser answer st
  | LoginSuccess u answer => handleLoginSuccess u answer st
  | Logout => handleLogout st
  | Loaded answer => loadData answer st
  | Navigate v => setView v st
  | SavePurchase saved answer => handleSavePurchase saved answer st
  | SaveSales saved answer => handleSaveSales saved answer st
  | Delete deleted answer => handleDelete deleted answer st
  | StartPurchaseEntry => startPurchaseEntry st
  | StartSalesEntry => (startSalesEntry st).1
  | Edit record => handleEdit record st
  | HistoryContinue record => handleHistoryContinue record st
  end.

(** The events the interface can produce while the server never answers a
    save with [null]: the navigation bar and the cancel buttons lead to the
    dashboard or the history only. *)
Definition regular (e : event) : Prop :=
  match e with
  | Navigate v => v = DASHBOARD \/ v = HISTORY
  | SavePurchase (Some None) _ => False
  | _ => True
  end.

(** Whenever the sales view is selected there is a record to show in it. *)
Definition salesViewHasRecord (st : state) : Prop :=
  view st = ENTRY_SALES -> activeRecord st <> None.

(** The pages are shown once a user is in, nothing is loading and no error
    is up. *)
Definition ready (st : state) : Prop :=
  user st <> None /\ loading st = false /\ error st = None.

End App.

(** ** What [saveRecord] does with the record a form hands over
    ([storageService.ts], line 119): the derivation runs first. *)

Module Save.

Section WithNumber.
Variable Number : string -> float.

Definition processedRecord (record : WeeklyRecord) : WeeklyRecord :=
  calculateRecordMetrics record.

(** What reaches the server when the purchase form, respectively the sales
    form, is submitted: nothing when validation rejects. *)
Definition purchaseSubmission (existingRecord : option WeeklyRecord)
    (fd : PurchaseForm.formData) (now : string) : option WeeklyRecord :=
  processedRecord
    <$> onSave (PurchaseForm.handleSubmit Number existingRecord fd now).

Definition salesSubmission (record : WeeklyRecord)
    (fd : SalesForm.formData) (now : string) : option WeeklyRecord :=
  processedRecord <$> onSave (SalesForm.handleSubmit Number record fd now).

End WithNumber.

End Save.

(** * Facts about binary64 arithmetic

    The primitive operations are specified by [SpecFloat]; the facts below
    are read off that specification.  The one that needs work is that the
    difference of two values [x < y] is negative and never rounds to zero:
    rounding keeps at least one bit of a non-zero mantissa. *)

Module FloatFacts.

Import SF64.
Local Open Scope Z_scope.

Lemma digits2_upper (p : positive) : Z.pos p < 2 ^ Z.pos (digits2_pos p).
Proof.
  induction p as [p IH | p IH |]; cbn [digits2_pos];
    rewrite ?Pos2Z.inj_succ, ?Z.pow_succ_r by lia; lia.
Qed.

Lemma digits2_lower (p : positive) :
  2 ^ (Z.pos (digits2_pos p) - 1) <= Z.pos p.
Proof.
  induction p as [p IH | p IH |]; cbn [digits2_pos];
    rewrite ?Pos2Z.inj_succ;
    try (replace (Z.succ (Z.pos (digits2_pos p)) - 1)
           with (Z.succ (Z.pos (digits2_pos p) - 1)) by lia;
         rewrite Z.pow_succ_r by lia);
    try lia; reflexivity.
Qed.

Lemma shr_1_lower (mrs : shr_record) (a : Z) :
  2 * a <= shr_m mrs -> a <= shr_m (shr_1 mrs).
Proof.
  destruct mrs as [m r s]; cbn [shr_m shr_1].
  destruct m as [| [p | p |] | [p | p |]]; cbn [shr_m]; lia.
Qed.

Lemma iter_shr_1_lower (p : positive) :
  forall (mrs : shr_record) (k : Z),
    0 <= k ->
    2 ^ (Z.pos p + k) <= shr_m mrs ->
    2 ^ k <= shr_m (SpecFloat.iter_pos shr_1 p mrs).
Proof.
  induction p as [p IH | p IH |]; intros mrs k Hk H; cbn [SpecFloat.iter_pos].
  - apply IH; [lia |]. apply IH; [lia |].
    apply shr_1_lower. rewrite <- Z.pow_succ_r by lia.
    replace (Z.succ (Z.pos p + (Z.pos p + k))) with (Z.pos p~1 + k) by lia.
    exact H.
  - apply IH; [lia |]. apply IH; [lia |].
    replace (Z.pos p + (Z.pos p + k)) with (Z.pos p~0 + k) by lia.
    exact H.
  - apply shr_1_lower. rewrite <- Z.pow_succ_r by lia.
    replace (Z.succ k) with (1 + k) by lia. exact H.
Qed.

Lemma shr_m_of_loc (m : Z) (l : location) :
  shr_m (shr_record_of_loc m l) = m.
Proof. destruct l as [| []]; reflexivity. Qed.

(** Shifting a positive mantissa to its canonical exponent leaves it
    positive, and the exponent stays above [emin]. *)
Lemma shr_fexp_pos (m : positive) (e : Z) (l : location) :
  emin64 <= e ->
  0 < shr_m (fst (shr_fexp prec emax (Z.pos m) e l))
  /\ emin64 <= snd (shr_fexp prec emax (Z.pos m) e l).
Proof.
  intros He. unfold shr_fexp, shr, fexp, emin, Zdigits2.
  pose proof (digits2_lower m) as Hlo.
  set (d := Z.pos (digits2_pos m)) in *.
  destruct (Z.max (d + e - prec) (3 - emax - prec) - e) as [| q | q] eqn:Hn;
    cbn [fst snd]; rewrite ?shr_m_of_loc; unfold emin64, prec, emax in *;
    try (split; lia).
  split; [| lia].
  apply Z.lt_le_trans with (2 ^ 0); [reflexivity |].
  apply iter_shr_1_lower; [lia |]. rewrite shr_m_of_loc.
  apply Z.le_trans with (2 ^ (d - 1)); [| exact Hlo].
  apply Z.pow_le_mono_r; lia.
Qed.

Lemma round_nearest_even_lower (m : Z) (l : location) :
  m <= round_nearest_even m l.
Proof.
  destruct l as [| []]; cbn [round_nearest_even]; try lia.
  destruct (Z.even m); lia.
Qed.

Lemma binary_round_aux_signed (s : bool) (m : positive) (e : Z)
    (l : location) :
  emin64 <= e -> signed s (binary_round_aux prec emax s (Z.pos m) e l).
Proof.
  intros He. unfold binary_round_aux.
  destruct (shr_fexp_pos m e l He) as [Hm He'].
  destruct (shr_fexp prec emax (Z.pos m) e l) as [mrs' e'].
  cbn [fst snd] in Hm, He'.
  pose proof (round_nearest_even_lower (shr_m mrs')
                (loc_of_shr_record mrs')) as Hr.
  destruct (round_nearest_even (shr_m mrs') (loc_of_shr_record mrs'))
    as [| m2 | m2]; try lia.
  destruct (shr_fexp_pos m2 e' loc_Exact He') as [Hm2 _].
  destruct (shr_fexp prec emax (Z.pos m2) e' loc_Exact) as [mrs'' e''].
  cbn [fst] in Hm2.
  destruct (shr_m mrs'') as [| m3 | m3]; try lia.
  destruct (e'' <=? emax - prec); reflexivity.
Qed.

Lemma binary_round_signed (s : bool) (m : positive) (e : Z) :
  emin64 <= e -> signed s (binary_round prec emax s m e).
Proof.
  intros He. unfold binary_round, shl_align.
  set (e' := fexp prec emax (Z.pos (digits2_pos m) + e)).
  assert (emin64 <= e') by (unfold e', fexp, emin, emin64, prec, emax; lia).
  destruct (e' - e); apply binary_round_aux_signed; assumption.
Qed.


Lemma valid_finite_bounds (s : bool) (m : positive) (e : Z) :
  valid_binary (S754_finite s m e) = true ->
  emin64 <= e
  /\ Z.pos (digits2_pos m) <= prec
  /\ (emin64 < e -> Z.pos (digits2_pos m) = prec).
Proof.
  cbn [SpecFloat.valid_binary]. unfold bounded, canonical_mantissa, fexp, emin.
  intros H. apply andb_prop in H as [H _]. apply Z.eqb_eq in H.
  unfold emin64, prec, emax in *. lia.
Qed.

Lemma shl_align_fst (m : positive) (e e' : Z) :
  e' <= e -> Z.pos (fst (shl_align m e e')) = Z.pos m * 2 ^ (e - e').
Proof.
  intros He. unfold shl_align.
  destruct (e' - e) as [| d | d] eqn:Hd; cbn [fst]; try lia.
  - replace (e - e') with 0 by lia. lia.
  - change (Pos.iter xO m d) with (shift_pos d m).
    rewrite shift_pos_correct, Zpower_pos_nat, Zpower_nat_Z.
    rewrite positive_nat_Z. replace (e - e') with (Z.pos d) by lia. lia.
Qed.

(** Valid finite values are ordered by their exponents first. *)
Lemma canonical_exp_lt (s1 s2 : bool) (m1 m2 : positive) (e1 e2 : Z) :
  valid_binary (S754_finite s1 m1 e1) = true ->
  valid_binary (S754_finite s2 m2 e2) = true ->
  e1 < e2 ->
  Z.pos m1 < Z.pos m2 * 2 ^ (e2 - e1).
Proof.
  intros V1 V2 Hlt.
  apply valid_finite_bounds in V1 as (Hmin1 & Hd1 & _).
  apply valid_finite_bounds in V2 as (_ & _ & Hd2).
  specialize (Hd2 ltac:(lia)).
  pose proof (digits2_upper m1) as Hup.
  pose proof (digits2_lower m2) as Hlo. rewrite Hd2 in Hlo.
  assert (2 ^ Z.pos (digits2_pos m1) <= 2 ^ prec)
    by (apply Z.pow_le_mono_r; lia).
  assert (2 ^ 1 <= 2 ^ (e2 - e1)) by (apply Z.pow_le_mono_r; lia).
  change (2 ^ 1) with 2 in *.
  change (2 ^ prec) with (2 * 2 ^ (prec - 1)) in *.
  assert (0 < 2 ^ (prec - 1)) by reflexivity.
  nia.
Qed.

Lemma finite_lt_aligned (sx sy : bool) (mx my : positive) (ex ey : Z) :
  valid_binary (S754_finite sx mx ex) = true ->
  valid_binary (S754_finite sy my ey) = true ->
  SFcompare (S754_finite sx mx ex) (S754_finite sy my ey) = Some Lt ->
  cond_Zopp sx (Z.pos (fst (shl_align mx ex (Z.min ex ey))))
  - cond_Zopp sy (Z.pos (fst (shl_align my ey (Z.min ex ey)))) < 0.
Proof.
  intros Vx Vy Hc. rewrite !shl_align_fst by lia.
  assert (0 < 2 ^ (ex - Z.min ex ey)) by (apply Z.pow_pos_nonneg; lia).
  assert (0 < 2 ^ (ey - Z.min ex ey)) by (apply Z.pow_pos_nonneg; lia).
  cbn [SFcompare] in Hc.
  destruct sx, sy; cbn [cond_Zopp]; try discriminate; try nia.
  - (* both negative *)
    destruct (Z.compare_spec ex ey) as [He | He | He]; try discriminate.
    + subst ey. rewrite Z.min_id, Z.sub_diag in *.
      change (Pos.compare_cont Eq mx my) with (Pos.compare mx my) in Hc.
      destruct (Pos.compare_spec mx my); try discriminate. lia.
    + pose proof (canonical_exp_lt _ _ _ _ _ _ Vy Vx He).
      replace (Z.min ex ey) with ey by lia. rewrite Z.sub_diag. lia.
  - (* both positive *)
    destruct (Z.compare_spec ex ey) as [He | He | He]; try discriminate.
    + subst ey. rewrite Z.min_id, Z.sub_diag in *.
      change (Pos.compare_cont Eq mx my) with (Pos.compare mx my) in Hc.
      destruct (Pos.compare_spec mx my); try discriminate. lia.
    + pose proof (canonical_exp_lt _ _ _ _ _ _ Vx Vy He).
      replace (Z.min ex ey) with ex by lia. rewrite Z.sub_diag. lia.
Qed.

Lemma signed_neg_ltb (x : spec_float) :
  signed true x -> SFltb x (S754_zero false) = true.
Proof. destruct x as [| s | | s m e]; cbn; try tauto; intros ->; reflexivity. Qed.

(** The specification-level core: [x < y] makes [x - y] negative. *)
Lemma SFsub_lt_neg (x y : spec_float) :
  valid_binary x = true -> valid_binary y = true ->
  SFltb x y = true ->
  SFltb (SF64sub x y) (S754_zero false) = true.
Proof.
  intros Vx Vy. unfold SFltb at 1.
  destruct (SFcompare x y) as [[]|] eqn:Hc; try discriminate. intros _.
  destruct x as [sx | sx | | sx mx ex], y as [sy | sy | | sy my ey];
    try discriminate;
    try (destruct sx; try destruct sy; try discriminate; reflexivity);
    try (destruct sy; try discriminate; reflexivity).
  unfold SF64sub, SFsub.
  pose proof (finite_lt_aligned _ _ _ _ _ _ Vx Vy Hc) as HD.
  apply valid_finite_bounds in Vx as (Hx & _).
  apply valid_finite_bounds in Vy as (Hy & _).
  cbv zeta.
  destruct (_ - _) as [| d | d]; try lia.
  cbn [binary_normalize]. apply signed_neg_ltb, binary_round_signed. lia.
Qed.

Lemma SFadd_nonneg (x y : spec_float) :
  valid_binary x = true -> valid_binary y = true ->
  SFleb (S754_zero false) x = true ->
  SFleb (S754_zero false) y = true ->
  SFleb (S754_zero false) (SF64add x y) = true.
Proof.
  intros Vx Vy Hx Hy.
  destruct x as [sx | sx | | sx mx ex], y as [sy | sy | | sy my ey];
    try discriminate;
    try (destruct sx; try destruct sy; try discriminate; reflexivity);
    try (destruct sy; try discriminate; reflexivity).
  destruct sx, sy; try discriminate.
  unfold SF64add, SFadd. cbn [cond_Zopp]. cbv zeta.
  apply valid_finite_bounds in Vx as (Hex & _).
  apply valid_finite_bounds in Vy as (Hey & _).
  rewrite <- Pos2Z.inj_add. cbn [binary_normalize].
  pose proof (binary_round_signed false
                (fst (shl_align mx ex (Z.min ex ey))
                 + fst (shl_align my ey (Z.min ex ey)))%positive
                (Z.min ex ey) ltac:(lia)) as Hs.
  destruct (binary_round _ _ _ _ _) as [| s | | s m e]; cbn in Hs;
    try tauto; subst; reflexivity.
Qed.

Lemma SFsub_zero_r (x : spec_float) : SF64sub x (S754_zero false) = x.
Proof. destruct x as [[] | [] | | s m e]; reflexivity. Qed.

Lemma SFcompare_refl (x : spec_float) :
  x <> S754_nan -> SFcompare x x = Some Eq.
Proof.
  destruct x as [s | s | | s m e]; intros H; try congruence;
    cbn [SFcompare]; destruct s; try reflexivity;
    rewrite Z.compare_refl;
    change (Pos.compare_cont Eq m m) with (Pos.compare m m);
    rewrite Pos.compare_refl; reflexivity.
Qed.


Lemma zeq_refl (a : spec_float) : zeq a a.
Proof. destruct a; cbn; auto. Qed.

Lemma SFadd_zeq (a a' b b' : spec_float) :
  zeq a a' -> zeq b b' -> zeq (SF64add a b) (SF64add a' b').
Proof.
  destruct a as [sa | sa | | sa ma ea], a' as [sa' | sa' | | sa' ma' ea'];
    cbn [zeq]; intros Ha; try discriminate; try (injection Ha as -> || clear Ha);
    destruct b as [sb | sb | | sb mb eb], b' as [sb' | sb' | | sb' mb' eb'];
    cbn [zeq]; intros Hb; try discriminate;
    try (injection Hb as -> || clear Hb); subst;
    try apply zeq_refl;
    try (destruct sa, sa', sb, sb'; exact I).
Qed.

Lemma zeq_trans (a b c : spec_float) : zeq a b -> zeq b c -> zeq a c.
Proof.
  destruct a, b, c; cbn [zeq]; intros H1 H2;
    try exact I; try discriminate; congruence.
Qed.

Lemma SFadd_zero_l (x : spec_float) : zeq x (SF64add (S754_zero false) x).
Proof.
  destruct x as [[|] | s | | s m e]; cbn; try reflexivity; exact I.
Qed.

Lemma SFadd_zero_r (x : spec_float) : zeq x (SF64add x (S754_zero false)).
Proof.
  destruct x as [[|] | s | | s m e]; cbn; try reflexivity; exact I.
Qed.

Lemma SFdiv_zeq (a a' b : spec_float) :
  zeq a a' -> zeq (SF64div a b) (SF64div a' b).
Proof.
  destruct a as [sa | sa | | sa ma ea], a' as [sa' | sa' | | sa' ma' ea'];
    cbn [zeq]; intros Ha; try discriminate;
    try (injection Ha as -> || clear Ha); subst; try apply zeq_refl.
  destruct b; cbn; auto.
Qed.

Lemma SFcompare_zeq (a a' b b' : spec_float) :
  zeq a a' -> zeq b b' -> SFcompare a b = SFcompare a' b'.
Proof.
  destruct a as [sa | sa | | sa ma ea], a' as [sa' | sa' | | sa' ma' ea'];
    cbn [zeq]; intros Ha; try discriminate;
    try (injection Ha as -> || clear Ha);
    destruct b as [sb | sb | | sb mb eb], b' as [sb' | sb' | | sb' mb' eb'];
    cbn [zeq]; intros Hb; try discriminate;
    try (injection Hb as -> || clear Hb); subst; reflexivity.
Qed.

Local Open Scope float_scope.

Lemma Prim2SF_zero : Prim2SF 0 = S754_zero false.
Proof. reflexivity. Qed.

Lemma is_nan_spec (x : float) : is_nan x = true <-> Prim2SF x = S754_nan.
Proof.
  unfold is_nan. rewrite FloatAxioms.eqb_spec. unfold SFeqb. split.
  - intros H. destruct (Prim2SF x) eqn:E; try reflexivity;
      rewrite SFcompare_refl in H by discriminate; discriminate.
  - intros ->. reflexivity.
Qed.

Lemma not_nan_spec (x : float) : is_nan x = false <-> Prim2SF x <> S754_nan.
Proof.
  pose proof (is_nan_spec x) as H.
  destruct (is_nan x); split; intros H1; try congruence.
  - exfalso. apply H1, H. reflexivity.
  - intros H2. apply H in H2. discriminate.
Qed.

Lemma is_zero_spec (x : float) :
  is_zero x = true <-> exists s, Prim2SF x = S754_zero s.
Proof.
  unfold is_zero. rewrite FloatAxioms.eqb_spec. change (Prim2SF zero) with (S754_zero false).
  unfold SFeqb. destruct (Prim2SF x) as [s | s | | s m e]; cbn; split;
    try discriminate; try (intros [? ?]; discriminate); eauto;
    destruct s; discriminate.
Qed.

Lemma sub_zero_r (x : float) : x - 0 = x.
Proof.
  apply Prim2SF_inj. rewrite FloatAxioms.sub_spec, Prim2SF_zero. apply SFsub_zero_r.
Qed.

Lemma sub_neg_of_lt (x y : float) :
  (x <? y) = true -> (x - y <? 0) = true.
Proof.
  rewrite !FloatAxioms.ltb_spec, FloatAxioms.sub_spec, Prim2SF_zero.
  apply SFsub_lt_neg; apply Prim2SF_valid.
Qed.

Lemma add_nonneg (x y : float) :
  (0 <=? x) = true -> (0 <=? y) = true -> (0 <=? x + y) = true.
Proof.
  rewrite !FloatAxioms.leb_spec, FloatAxioms.add_spec, Prim2SF_zero.
  apply SFadd_nonneg; apply Prim2SF_valid.
Qed.

Lemma leb_zero_false (x : float) :
  is_nan x = false -> (x <=? 0) = false <-> (0 <? x) = true.
Proof.
  rewrite not_nan_spec, FloatAxioms.leb_spec, FloatAxioms.ltb_spec, Prim2SF_zero.
  unfold SFleb, SFltb.
  destruct (Prim2SF x) as [s | s | | s m e]; try destruct s; cbn;
    intros H; split; congruence.
Qed.

Lemma ltb_zero_false (x : float) :
  is_nan x = false -> (x <? 0) = false <-> (0 <=? x) = true.
Proof.
  rewrite not_nan_spec, FloatAxioms.leb_spec, FloatAxioms.ltb_spec, Prim2SF_zero.
  unfold SFleb, SFltb.
  destruct (Prim2SF x) as [s | s | | s m e]; try destruct s; cbn;
    intros H; split; congruence.
Qed.



Lemma leb_zero_not_nan (x : float) : (0 <=? x) = true -> is_nan x = false.
Proof.
  rewrite not_nan_spec, FloatAxioms.leb_spec, Prim2SF_zero. unfold SFleb.
  destruct (Prim2SF x); cbn; congruence.
Qed.

End FloatFacts.

(** * Facts about the JavaScript primitives *)

Module JSFacts.

Import SF64 FloatFacts.

Lemma falsy_not_gt (v : float) : JS.falsy v = true -> JS.gtb v 0 = false.
Proof.
  unfold JS.falsy, JS.gtb. rewrite FloatAxioms.ltb_spec, Prim2SF_zero.
  intros [Hz | Hn]%orb_prop.
  - apply is_zero_spec in Hz as [s ->]. reflexivity.
  - apply is_nan_spec in Hn as ->. reflexivity.
Qed.

(** [x || 0] is positive exactly when [x] is, and is [x] itself then. *)
Lemma gtb_orZero (v : float) :
  JS.gtb (JS.orZero (Some v)) 0 = JS.gtb v 0.
Proof.
  cbn [JS.orZero]. destruct (JS.falsy v) eqn:F; [| reflexivity].
  rewrite (falsy_not_gt v F). reflexivity.
Qed.

Lemma orZero_pos (v : float) :
  JS.gtb v 0 = true -> JS.orZero (Some v) = v.
Proof.
  intros H. cbn [JS.orZero]. destruct (JS.falsy v) eqn:F; [| reflexivity].
  rewrite (falsy_not_gt v F) in H. discriminate.
Qed.

(** A number that is not [NaN] and its [|| 0] differ at most by the sign of
    a zero. *)
Lemma zeq_orZero (v : float) :
  is_nan v = false -> zeq (Prim2SF v) (Prim2SF (JS.orZero (Some v))).
Proof.
  intros Hn. cbn [JS.orZero]. unfold JS.falsy. rewrite Hn, orb_false_r.
  destruct (is_zero v) eqn:Hz; [| apply zeq_refl].
  apply is_zero_spec in Hz as [s ->]. exact I.
Qed.

(** Beside an absent component, which counts as [0], the sum of the two
    [|| 0] is the present number, up to the sign of a zero. *)
Lemma zeq_absent_l (v : float) :
  is_nan v = false ->
  zeq (Prim2SF v) (Prim2SF (JS.orZero None + JS.orZero (Some v))).
Proof.
  intros Hn. cbn [JS.orZero]. rewrite FloatAxioms.add_spec, Prim2SF_zero.
  eapply zeq_trans; [apply (zeq_orZero v Hn) | apply SFadd_zero_l].
Qed.

Lemma zeq_absent_r (v : float) :
  is_nan v = false ->
  zeq (Prim2SF v) (Prim2SF (JS.orZero (Some v) + JS.orZero None)).
Proof.
  intros Hn. cbn [JS.orZero]. rewrite FloatAxioms.add_spec, Prim2SF_zero.
  eapply zeq_trans; [apply (zeq_orZero v Hn) | apply SFadd_zero_r].
Qed.

Lemma gtb_zeq (a a' b b' : float) :
  zeq (Prim2SF a) (Prim2SF a') -> zeq (Prim2SF b) (Prim2SF b') ->
  JS.gtb a b = JS.gtb a' b'.
Proof.
  intros Ha Hb. unfold JS.gtb. rewrite !FloatAxioms.ltb_spec. unfold SFltb.
  rewrite (SFcompare_zeq _ _ _ _ Hb Ha). reflexivity.
Qed.

Lemma strEmpty_false (s : string) : JS.strEmpty s = false <-> s <> "".
Proof. unfold JS.strEmpty. apply bool_decide_eq_false. Qed.

End JSFacts.

(** * Metrics derivation *)

Module Derivation.

Import FloatFacts JSFacts.

(** Unfolds the derivation on a record whose flag is known and projects the
    fields of the result. *)
Ltac derive_with Hflag :=
  unfold calculateRecordMetrics; rewrite Hflag;
  cbn [negb id weekDate createdAt salesCompletedAt totalHens totalLiveWeight
       purchaseRate totalPurchaseCost isSalesEntryComplete sellingPrice
       cashCollected upiCollected expenseTea expenseFuel totalExpenses
       totalRevenue meatSold wastage wastagePercentage netProfit
       profitPerHen profitPerKg].

(** Neither branch of the derivation writes the flag. *)
Lemma flag_kept (r : WeeklyRecord) :
  isSalesEntryComplete (calculateRecordMetrics r) = isSalesEntryComplete r.
Proof.
  unfold calculateRecordMetrics. destruct (isSalesEntryComplete r); reflexivity.
Qed.

(** C1.  The derivation always sets [totalPurchaseCost] to
    [totalLiveWeight * purchaseRate].  On a record whose sales entry is not
    complete that is all it sets: every sales-stage computed field of the
    result is the one of the input, so on a valid purchase-stage record,
    where those fields are absent, they are absent from the result. *)
Theorem purchase_cost_always (r : WeeklyRecord) :
  totalPurchaseCost (calculateRecordMetrics r)
  = totalLiveWeight r * purchaseRate r
  /\ (isSalesEntryComplete r = false ->
      (totalRevenue (calculateRecordMetrics r) = totalRevenue r
       /\ meatSold (calculateRecordMetrics r) = meatSold r
       /\ wastage (calculateRecordMetrics r) = wastage r
       /\ wastagePercentage (calculateRecordMetrics r) = wastagePercentage r
       /\ totalExpenses (calculateRecordMetrics r) = totalExpenses r
       /\ netProfit (calculateRecordMetrics r) = netProfit r
       /\ profitPerHen (calculateRecordMetrics r) = profitPerHen r
       /\ profitPerKg (calculateRecordMetrics r) = profitPerKg r)
      /\ (salesMetricsUnset r ->
          salesMetricsUnset (calculateRecordMetrics r))).
Proof.
  split.
  - unfold calculateRecordMetrics.
    destruct (isSalesEntryComplete r); reflexivity.
  - intros Hflag. unfold calculateRecordMetrics. rewrite Hflag. cbn.
    split; [repeat split; reflexivity | exact (fun H => H)].
Qed.

Lemma purchase_cost_always_witness :
  isSalesEntryComplete Examples.purchaseOnly = false
  /\ salesMetricsUnset Examples.purchaseOnly
  /\ totalPurchaseCost (calculateRecordMetrics Examples.purchaseOnly) = 12000
  /\ salesMetricsUnset (calculateRecordMetrics Examples.purchaseOnly).
Proof.
  assert (Hu : salesMetricsUnset Examples.purchaseOnly)
    by (repeat split; reflexivity).
  destruct (purchase_cost_always Examples.purchaseOnly) as [Hc Hs].
  split; [reflexivity |]. split; [exact Hu |]. split.
  - rewrite Hc. reflexivity.
  - apply Hs; [reflexivity | exact Hu].
Defined.

(** C10.  The derivation leaves the identity, the timestamps, the flag and
    every raw input field as they are in its argument. *)
Theorem derivation_frame (r : WeeklyRecord) :
  id (calculateRecordMetrics r) = id r
  /\ weekDate (calculateRecordMetrics r) = weekDate r
  /\ createdAt (calculateRecordMetrics r) = createdAt r
  /\ salesCompletedAt (calculateRecordMetrics r) = salesCompletedAt r
  /\ totalHens (calculateRecordMetrics r) = totalHens r
  /\ totalLiveWeight (calculateRecordMetrics r) = totalLiveWeight r
  /\ purchaseRate (calculateRecordMetrics r) = purchaseRate r
  /\ isSalesEntryComplete (calculateRecordMetrics r) = isSalesEntryComplete r
  /\ sellingPrice (calculateRecordMetrics r) = sellingPrice r
  /\ cashCollected (calculateRecordMetrics r) = cashCollected r
  /\ upiCollected (calculateRecordMetrics r) = upiCollected r
  /\ expenseTea (calculateRecordMetrics r) = expenseTea r
  /\ expenseFuel (calculateRecordMetrics r) = expenseFuel r.
Proof.
  unfold calculateRecordMetrics.
  destruct (isSalesEntryComplete r); cbn; repeat split; reflexivity.
Qed.

(** C6.  Deriving twice is deriving once: the second run reads the same
    raw fields and writes the same computed fields over the first run's. *)
Theorem derivation_idempotent (r : WeeklyRecord) :
  calculateRecordMetrics (calculateRecordMetrics r)
  = calculateRecordMetrics r.
Proof.
  unfold calculateRecordMetrics.
  destruct (isSalesEntryComplete r) eqn:Hflag; cbn; reflexivity.
Qed.

(** C2.  On a sales-complete record [totalRevenue] is
    [(cashCollected || 0) + (upiCollected || 0)], an absent component
    counting as [0]; [meatSold] is that revenue divided by the selling price
    when the price is greater than [0], and [0] otherwise.  With no selling
    price, or one that is not positive, [meatSold] is [0] whatever the
    revenue, [wastage] is the whole live weight and [netProfit] is still
    computed from the revenue; with sellingPrice=0, cash=500, upi=0 the
    revenue is 500. *)
Theorem revenue_and_meat_sold (r : WeeklyRecord) :
  isSalesEntryComplete r = true ->
  let revenue := JS.orZero (cashCollected r) + JS.orZero (upiCollected r) in
  let expenses := JS.orZero (expenseTea r) + JS.orZero (expenseFuel r) in
  let cost := totalLiveWeight r * purchaseRate r in
  totalRevenue (calculateRecordMetrics r) = Some revenue
  /\ (cashCollected r = None -> upiCollected r = None ->
      totalRevenue (calculateRecordMetrics r) = Some 0)
  /\ (forall c u, cashCollected r = Some c -> upiCollected r = Some u ->
      is_nan c = false -> is_nan u = false ->
      SF64.zeq (Prim2SF (c + u)) (Prim2SF revenue))
  /\ (forall price, sellingPrice r = Some price -> JS.gtb price 0 = true ->
      meatSold (calculateRecordMetrics r) = Some (revenue / price))
  /\ (sellingPrice r = None
      \/ (exists price, sellingPrice r = Some price /\ JS.gtb price 0 = false) ->
      meatSold (calculateRecordMetrics r) = Some 0
      /\ wastage (calculateRecordMetrics r) = Some (totalLiveWeight r)
      /\ netProfit (calculateRecordMetrics r)
         = Some (revenue - (cost + expenses)))
  /\ (sellingPrice r = Some 0 -> cashCollected r = Some 500 ->
      upiCollected r = Some 0 ->
      totalRevenue (calculateRecordMetrics r) = Some 500
      /\ meatSold (calculateRecordMetrics r) = Some 0
      /\ wastage (calculateRecordMetrics r) = Some (totalLiveWeight r)
      /\ netProfit (calculateRecordMetrics r)
         = Some (500 - (cost + expenses))).
Proof.
  intros Hflag revenue expenses cost.
  assert (Hguard : JS.gtb (JS.orZero (sellingPrice r)) 0 = false ->
            meatSold (calculateRecordMetrics r) = Some 0
            /\ wastage (calculateRecordMetrics r) = Some (totalLiveWeight r)
            /\ netProfit (calculateRecordMetrics r)
               = Some (revenue - (cost + expenses))).
  { intros Hg. derive_with Hflag.
    rewrite Hg, sub_zero_r. repeat split; reflexivity. }
  split; [| split; [| split; [| split; [| split]]]].
  - derive_with Hflag. reflexivity.
  - intros Hc Hu. derive_with Hflag.
    rewrite Hc, Hu. reflexivity.
  - intros c u Hc Hu Hnc Hnu. unfold revenue. rewrite Hc, Hu.
    rewrite !FloatAxioms.add_spec. apply SFadd_zeq; apply zeq_orZero; assumption.
  - intros price Hp Hpos. derive_with Hflag. rewrite Hp, gtb_orZero, Hpos, (orZero_pos _ Hpos).
    reflexivity.
  - intros [Hp | (price & Hp & Hle)]; apply Hguard; rewrite Hp.
    + reflexivity.
    + rewrite gtb_orZero. exact Hle.
  - intros Hp Hc Hu. unfold revenue in *. rewrite Hc, Hu in *.
    split; [derive_with Hflag; rewrite Hc, Hu; reflexivity |].
    apply Hguard. rewrite Hp. reflexivity.
Qed.

Lemma revenue_and_meat_sold_witness :
  isSalesEntryComplete Examples.degenerate = true
  /\ totalRevenue (calculateRecordMetrics Examples.degenerate) = Some 500
  /\ meatSold (calculateRecordMetrics Examples.degenerate) = Some 0
  /\ wastage (calculateRecordMetrics Examples.degenerate) = Some 150
  /\ netProfit (calculateRecordMetrics Examples.degenerate) = Some (-11500).
Proof.
  split; [reflexivity |].
  pose proof (revenue_and_meat_sold Examples.degenerate eq_refl) as H.
  cbv zeta in H. destruct H as (_ & _ & _ & _ & _ & H).
  apply (H eq_refl eq_refl eq_refl).
Defined.

(** C3.  On a sales-complete record [totalExpenses] is
    [(expenseTea || 0) + (expenseFuel || 0)] and [netProfit] is
    [totalRevenue - (totalPurchaseCost + totalExpenses)], with no clamping:
    when the revenue is below cost plus expenses the profit returned is
    negative.  A missing expense counts as [0]: with both absent the
    expenses are [0] and the profit is revenue minus cost plus [0]; with
    one absent the expenses are the other one; with both present they are
    the sum.  The worked example gives 10000 - (12000 + 150) = -2150; the
    same week sold at 10 for 600 with no expense entered has expenses [0]
    and profit 600 - 4000 = -3400. *)
Theorem expenses_and_net_profit :
  (forall r : WeeklyRecord,
     isSalesEntryComplete r = true ->
     let revenue := JS.orZero (cashCollected r) + JS.orZero (upiCollected r) in
     let expenses := JS.orZero (expenseTea r) + JS.orZero (expenseFuel r) in
     let cost := totalLiveWeight r * purchaseRate r in
     totalExpenses (calculateRecordMetrics r) = Some expenses
     /\ totalRevenue (calculateRecordMetrics r) = Some revenue
     /\ totalPurchaseCost (calculateRecordMetrics r) = cost
     /\ netProfit (calculateRecordMetrics r)
        = Some (revenue - (cost + expenses))
     /\ (forall t f, expenseTea r = Some t -> expenseFuel r = Some f ->
         is_nan t = false -> is_nan f = false ->
         SF64.zeq (Prim2SF (t + f)) (Prim2SF expenses))
     /\ (expenseTea r = None -> expenseFuel r = None ->
         totalExpenses (calculateRecordMetrics r) = Some 0
         /\ netProfit (calculateRecordMetrics r)
            = Some (revenue - (cost + 0)))
     /\ (forall f, expenseTea r = None -> expenseFuel r = Some f ->
         is_nan f = false ->
         exists e, totalExpenses (calculateRecordMetrics r) = Some e
                   /\ SF64.zeq (Prim2SF f) (Prim2SF e))
     /\ (forall t, expenseTea r = Some t -> expenseFuel r = None ->
         is_nan t = false ->
         exists e, totalExpenses (calculateRecordMetrics r) = Some e
                   /\ SF64.zeq (Prim2SF t) (Prim2SF e))
     /\ ((revenue <? cost + expenses) = true ->
         exists loss, netProfit (calculateRecordMetrics r) = Some loss
                      /\ (loss <? 0) = true))
  /\ totalRevenue (calculateRecordMetrics Examples.worked) = Some 10000
  /\ totalPurchaseCost (calculateRecordMetrics Examples.worked) = 12000
  /\ totalExpenses (calculateRecordMetrics Examples.worked) = Some 150
  /\ netProfit (calculateRecordMetrics Examples.worked) = Some (-2150)
  /\ expenseTea Examples.oversold = None
  /\ expenseFuel Examples.oversold = None
  /\ totalExpenses (calculateRecordMetrics Examples.oversold) = Some 0
  /\ netProfit (calculateRecordMetrics Examples.oversold) = Some (-3400).
Proof.
  split; [| repeat split; reflexivity].
  intros r Hflag revenue expenses cost.
  derive_with Hflag.
  split; [reflexivity |]. split; [reflexivity |]. split; [reflexivity |].
  split; [reflexivity |].
  split; [| split; [| split; [| split]]].
  - intros t f Ht Hf Hnt Hnf. unfold expenses. rewrite Ht, Hf.
    rewrite !FloatAxioms.add_spec. apply SFadd_zeq; apply zeq_orZero; assumption.
  - intros Ht Hf. unfold expenses. rewrite Ht, Hf. cbn [JS.orZero].
    split; reflexivity.
  - intros f Ht Hf Hnf. eexists. split; [reflexivity |].
    unfold expenses. rewrite Ht, Hf. apply zeq_absent_l, Hnf.
  - intros t Ht Hf Hnt. eexists. split; [reflexivity |].
    unfold expenses. rewrite Ht, Hf. apply zeq_absent_r, Hnt.
  - intros Hloss. eexists. split; [reflexivity |].
    apply sub_neg_of_lt. exact Hloss.
Qed.

Lemma expenses_and_net_profit_witness :
  (isSalesEntryComplete Examples.worked = true
   /\ exists loss,
        netProfit (calculateRecordMetrics Examples.worked) = Some loss
        /\ (loss <? 0) = true)
  /\ (isSalesEntryComplete Examples.oversold = true
      /\ expenseTea Examples.oversold = None
      /\ expenseFuel Examples.oversold = None
      /\ totalExpenses (calculateRecordMetrics Examples.oversold) = Some 0
      /\ netProfit (calculateRecordMetrics Examples.oversold)
         = Some (600 - (4000 + 0)))
  /\ (isSalesEntryComplete
        (Examples.sales 150 (Some 100) (Some 6000) (Some 4000) None
           (Some 100)) = true
      /\ exists e,
           totalExpenses
             (calculateRecordMetrics
                (Examples.sales 150 (Some 100) (Some 6000) (Some 4000) None
                   (Some 100))) = Some e
           /\ SF64.zeq (Prim2SF 100) (Prim2SF e)).
Proof.
  split; [| split].
  - split; [reflexivity |].
    apply (proj1 expenses_and_net_profit Examples.worked eq_refl).
    reflexivity.
  - split; [reflexivity |]. split; [reflexivity |]. split; [reflexivity |].
    pose proof (proj1 expenses_and_net_profit Examples.oversold eq_refl)
      as H.
    cbv zeta in H. destruct H as (_ & _ & _ & _ & _ & H & _).
    apply (H eq_refl eq_refl).
  - split; [reflexivity |].
    pose proof (proj1 expenses_and_net_profit
                  (Examples.sales 150 (Some 100) (Some 6000) (Some 4000)
                     None (Some 100)) eq_refl) as H.
    cbv zeta in H. destruct H as (_ & _ & _ & _ & _ & _ & H & _).
    apply (H 100 eq_refl eq_refl eq_refl).
Defined.

(** C4.  On a sales-complete record [wastage] is
    [totalLiveWeight - meatSold] as computed, with no clamping: whenever
    [meatSold] exceeds [totalLiveWeight] the wastage returned is negative. *)
Theorem wastage_not_clamped (r : WeeklyRecord) :
  isSalesEntryComplete r = true ->
  exists sold,
    meatSold (calculateRecordMetrics r) = Some sold
    /\ wastage (calculateRecordMetrics r) = Some (totalLiveWeight r - sold)
    /\ (JS.gtb sold (totalLiveWeight r) = true ->
        (totalLiveWeight r - sold <? 0) = true).
Proof.
  intros Hflag. derive_with Hflag.
  eexists. split; [reflexivity |]. split; [reflexivity |].
  unfold JS.gtb at 1. apply sub_neg_of_lt.
Qed.

Lemma wastage_not_clamped_witness :
  isSalesEntryComplete Examples.oversold = true
  /\ meatSold (calculateRecordMetrics Examples.oversold) = Some 60
  /\ wastage (calculateRecordMetrics Examples.oversold) = Some (-10)
  /\ exists sold,
       meatSold (calculateRecordMetrics Examples.oversold) = Some sold
       /\ wastage (calculateRecordMetrics Examples.oversold)
          = Some (totalLiveWeight Examples.oversold - sold)
       /\ (JS.gtb sold (totalLiveWeight Examples.oversold) = true ->
           (totalLiveWeight Examples.oversold - sold <? 0) = true).
Proof.
  split; [reflexivity |]. split; [reflexivity |]. split; [reflexivity |].
  apply (wastage_not_clamped Examples.oversold). reflexivity.
Defined.

End Derivation.

(** * Validation *)

Module Validation.

Import FloatFacts JSFacts.

Lemma when_reject_valid (c : bool) (f m : string) (st : errors * bool) :
  (when c (reject f m) st).2 = negb c && st.2.
Proof. destruct c; reflexivity. Qed.



Section WithNumber.
Variable Number : string -> float.

Lemma purchase_accepts (fd : PurchaseForm.formData) :
  (PurchaseForm.validate Number fd).2 = true <-> Checks.purchase Number fd.
Proof.
  unfold PurchaseForm.validate, Checks.purchase, Checks.positiveWhole,
    Checks.positive.
  cbv zeta. rewrite !when_reject_valid. cbn [snd].
  rewrite !andb_true_iff, !negb_true_iff, !orb_false_iff, negb_false_iff,
    !strEmpty_false.
  tauto.
Qed.

Lemma sales_accepts (fd : SalesForm.formData) :
  (SalesForm.validate Number fd).2 = true <-> Checks.sales Number fd.
Proof.
  unfold SalesForm.validate, Checks.sales, Checks.positiveWhole,
    Checks.positive, Checks.notNegative.
  cbv zeta. rewrite !when_reject_valid. cbn [snd].
  rewrite !andb_true_iff, !negb_true_iff, !orb_false_iff, negb_false_iff,
    !strEmpty_false.
  tauto.
Qed.



Hypothesis Number_empty : Number "" = 0.



End WithNumber.






End Validation.

(** * The sales submission and its warning *)

Module Submission.

Import SF64 FloatFacts JSFacts.

(** The estimate of the form and the derivation agree on whether the meat
    sold exceeds the live weight. *)
Lemma estimate_agrees (c u p w : float) :
  is_nan c = false -> is_nan u = false -> is_nan w = false ->
  JS.gtb (if JS.gtb p 0 then (c + u) / p else 0) (JS.numOrZero w)
  = JS.gtb (if JS.gtb (JS.orZero (Some p)) 0
            then (JS.orZero (Some c) + JS.orZero (Some u))
                 / JS.orZero (Some p)
            else 0) w.
Proof.
  intros Hc Hu Hw. rewrite gtb_orZero.
  assert (Hwz : zeq (Prim2SF (JS.numOrZero w)) (Prim2SF w)).
  { change (JS.numOrZero w) with (JS.orZero (Some w)).
    pose proof (zeq_orZero w Hw) as H.
    destruct (Prim2SF w), (Prim2SF (JS.orZero (Some w)));
      cbn in *; congruence. }
  destruct (JS.gtb p 0) eqn:Hp.
  - rewrite (orZero_pos p Hp). apply gtb_zeq; [| exact Hwz].
    rewrite !FloatAxioms.div_spec, !FloatAxioms.add_spec.
    apply SFdiv_zeq, SFadd_zeq; apply zeq_orZero; assumption.
  - apply gtb_zeq; [apply zeq_refl | exact Hwz].
Qed.

Section WithNumber.
Variable Number : string -> float.

Lemma accepted_is_saved (record : WeeklyRecord) (fd : SalesForm.formData)
    (now : string) :
  (SalesForm.validate Number fd).2 = true ->
  onSave (SalesForm.handleSubmit Number record fd now)
  = Some (SalesForm.updatedRecord Number record fd now).
Proof.
  intros Hv. unfold SalesForm.handleSubmit.
  destruct (SalesForm.validate Number fd) as [e v]. cbn [snd] in Hv.
  subst v. reflexivity.
Qed.

End WithNumber.

(** C9.  The warning is shown exactly when the estimate of the meat sold,
    revenue divided by the selling price, exceeds the live weight of the
    form; for numbers that are not [NaN] that is exactly when the [meatSold]
    the derivation computes for the submitted record exceeds its
    [totalLiveWeight].  The warning blocks nothing: an accepted form is
    handed to [onSave] whatever the warning says, and an accepted form stays
    accepted under any other acceptable live weight.  liveWeight=50,
    sellingPrice=10, cash=600, upi=0 gives meatSold=60, shows the warning
    and is saved. *)
Theorem warning_does_not_block (Number : string -> float) :
  (forall fd,
     SalesForm.warningShown Number fd
     = JS.gtb
         (if JS.gtb (Number (SalesForm.sellingPrice fd)) 0
          then (Number (SalesForm.cashCollected fd)
                + Number (SalesForm.upiCollected fd))
               / Number (SalesForm.sellingPrice fd)
          else 0)
         (JS.numOrZero (Number (SalesForm.totalLiveWeight fd))))
  /\ (forall record fd now,
        is_nan (Number (SalesForm.cashCollected fd)) = false ->
        is_nan (Number (SalesForm.upiCollected fd)) = false ->
        is_nan (Number (SalesForm.totalLiveWeight fd)) = false ->
        let saved :=
          calculateRecordMetrics
            (SalesForm.updatedRecord Number record fd now) in
        exists sold,
          meatSold saved = Some sold
          /\ SalesForm.warningShown Number fd
             = JS.gtb sold (totalLiveWeight saved))
  /\ (forall record fd now,
        (SalesForm.validate Number fd).2 = true ->
        onSave (SalesForm.handleSubmit Number record fd now)
        = Some (SalesForm.updatedRecord Number record fd now))
  /\ (forall fd weight,
        (SalesForm.validate Number fd).2 = true ->
        Checks.positive Number weight ->
        (SalesForm.validate Number
           (SalesForm.onChangeLiveWeight fd weight)).2 = true)
  /\ (SalesForm.warningShown Decimal.Number Examples.oversoldForm = true
      /\ (SalesForm.validate Decimal.Number Examples.oversoldForm).2 = true
      /\ exists saved,
           onSave (SalesForm.handleSubmit Decimal.Number
                     Examples.purchaseOnly Examples.oversoldForm
                     "2025-01-05T10:00:00.000Z") = Some saved
           /\ totalLiveWeight (calculateRecordMetrics saved) = 50
           /\ meatSold (calculateRecordMetrics saved) = Some 60
           /\ wastage (calculateRecordMetrics saved) = Some (-10)).
Proof.
  split; [reflexivity |]. split; [| split; [| split]].
  - intros record fd now Hc Hu Hw saved. subst saved.
    unfold calculateRecordMetrics.
    cbn [SalesForm.updatedRecord isSalesEntryComplete negb meatSold
         totalLiveWeight sellingPrice cashCollected upiCollected].
    eexists. split; [reflexivity |].
    apply estimate_agrees; assumption.
  - apply accepted_is_saved.
  - intros fd weight Hv Hw.
    apply Validation.sales_accepts. apply Validation.sales_accepts in Hv.
    unfold Checks.sales in *. cbn [SalesForm.onChangeLiveWeight
      SalesForm.totalHens SalesForm.totalLiveWeight SalesForm.purchaseRate
      SalesForm.sellingPrice SalesForm.cashCollected SalesForm.upiCollected
      SalesForm.expenseTea SalesForm.expenseFuel].
    tauto.
  - split; [vm_compute; reflexivity |]. split; [vm_compute; reflexivity |].
    eexists. split; [vm_compute; reflexivity |].
    repeat split; vm_compute; reflexivity.
Qed.

Lemma warning_does_not_block_witness :
  (SalesForm.validate Decimal.Number Examples.oversoldForm).2 = true
  /\ SalesForm.warningShown Decimal.Number Examples.oversoldForm = true
  /\ onSave (SalesForm.handleSubmit Decimal.Number Examples.purchaseOnly
               Examples.oversoldForm "2025-01-05T10:00:00.000Z")
     = Some (SalesForm.updatedRecord Decimal.Number Examples.purchaseOnly
               Examples.oversoldForm "2025-01-05T10:00:00.000Z")
  /\ exists sold,
       meatSold (calculateRecordMetrics
                   (SalesForm.updatedRecord Decimal.Number
                      Examples.purchaseOnly Examples.oversoldForm
                      "2025-01-05T10:00:00.000Z")) = Some sold
       /\ SalesForm.warningShown Decimal.Number Examples.oversoldForm
          = JS.gtb sold 50.
Proof.
  assert (Hv : (SalesForm.validate Decimal.Number Examples.oversoldForm).2
               = true) by (vm_compute; reflexivity).
  destruct (warning_does_not_block Decimal.Number)
    as (_ & Hlink & Hsave & _).
  split; [exact Hv |]. split; [vm_compute; reflexivity |].
  split; [apply Hsave, Hv |].
  apply (Hlink Examples.purchaseOnly Examples.oversoldForm
           "2025-01-05T10:00:00.000Z"); reflexivity.
Defined.

(** C5.  Re-submitting the sales form on a record that is already
    sales-complete does not keep its completion time: the record handed to
    [onSave] carries the time of the re-submission. *)
Theorem resubmission_restamps :
  let record := calculateRecordMetrics Examples.worked in
  (forall Number r fd now,
     salesCompletedAt (SalesForm.updatedRecord Number r fd now) = Some now)
  /\ isSalesEntryComplete record = true
  /\ salesCompletedAt record = Some "2025-01-05T10:00:00.000Z"
  /\ exists saved,
       onSave (SalesForm.handleSubmit Decimal.Number record
                 (Examples.salesForm "150" "100" "6000" "4000")
                 "2025-02-01T09:00:00.000Z") = Some saved
       /\ salesCompletedAt saved = Some "2025-02-01T09:00:00.000Z"
       /\ salesCompletedAt saved <> salesCompletedAt record.
Proof.
  cbv zeta. split; [reflexivity |]. split; [reflexivity |].
  split; [reflexivity |].
  eexists. split; [vm_compute; reflexivity |].
  split; [reflexivity | discriminate].
Qed.

End Submission.

(** * The completion flag *)

Module Completion.

Section WithNumber.
Variable Number : string -> float.

Lemma apply_keeps_complete (o : Lifecycle.operation) (r r' : WeeklyRecord) :
  isSalesEntryComplete r = true ->
  Lifecycle.apply Number o r = Some r' ->
  isSalesEntryComplete r' = true.
Proof.
  intros Hflag. destruct o as [fd now | fd now |]; cbn [Lifecycle.apply].
  - unfold PurchaseForm.handleSubmit.
    destruct (PurchaseForm.validate Number fd) as [e []]; cbn;
      [| discriminate].
    intros [= <-]. cbn. rewrite Hflag. reflexivity.
  - unfold SalesForm.handleSubmit.
    destruct (SalesForm.validate Number fd) as [e []]; cbn;
      [| discriminate].
    intros [= <-]. reflexivity.
  - intros [= <-]. rewrite <- Hflag. apply Derivation.flag_kept.
Qed.

End WithNumber.

(** C7.  The purchase edit of a stored record keeps its flag, the sales
    submission sets it, and the derivation leaves it as it is; so a record
    that is sales-complete stays sales-complete under every operation, and
    under every sequence of operations. *)
Theorem completion_is_permanent (Number : string -> float) :
  (forall r fd now,
     isSalesEntryComplete (PurchaseForm.buildRecord Number (Some r) fd now)
     = isSalesEntryComplete r)
  /\ (forall r fd now,
        isSalesEntryComplete (SalesForm.updatedRecord Number r fd now) = true)
  /\ (forall r,
        isSalesEntryComplete (calculateRecordMetrics r)
        = isSalesEntryComplete r)
  /\ (forall o r r',
        isSalesEntryComplete r = true ->
        Lifecycle.apply Number o r = Some r' ->
        isSalesEntryComplete r' = true)
  /\ (forall os r,
        isSalesEntryComplete r = true ->
        isSalesEntryComplete (Lifecycle.run Number os r) = true).
Proof.
  split; [intros r fd now; cbn; apply orb_false_r |].
  split; [reflexivity |].
  split; [apply Derivation.flag_kept |].
  split; [apply apply_keeps_complete |].
  intros os. induction os as [| o os IH]; intros r Hflag; [exact Hflag |].
  cbn [Lifecycle.run]. apply IH.
  destruct (Lifecycle.apply Number o r) as [r' |] eqn:Ho; cbn [default].
  - exact (apply_keeps_complete Number o r r' Hflag Ho).
  - exact Hflag.
Qed.

Lemma completion_is_permanent_witness :
  isSalesEntryComplete (calculateRecordMetrics Examples.worked) = true
  /\ isSalesEntryComplete
       (Lifecycle.run Decimal.Number
          [Lifecycle.PurchaseEdit (Examples.purchaseForm "160")
             "2025-01-06T08:00:00.000Z";
           Lifecycle.DeriveMetrics;
           Lifecycle.CompleteSales
             (Examples.salesForm "160" "100" "6000" "4000")
             "2025-01-06T09:00:00.000Z";
           Lifecycle.DeriveMetrics]
          (calculateRecordMetrics Examples.worked)) = true.
Proof.
  split; [reflexivity |].
  apply (completion_is_permanent Decimal.Number). reflexivity.
Defined.

End Completion.

(** * More facts about binary64 arithmetic: signs of products and quotients *)

Module FloatSigns.

Import SF64 FloatFacts.
Local Open Scope Z_scope.

Lemma iter_shr_1_nonneg (p : positive) :
  forall mrs : shr_record,
    0 <= shr_m mrs -> 0 <= shr_m (SpecFloat.iter_pos shr_1 p mrs).
Proof.
  induction p as [p IH | p IH |]; intros mrs H; cbn [SpecFloat.iter_pos].
  - apply IH, IH, shr_1_lower. lia.
  - apply IH, IH, H.
  - apply shr_1_lower. lia.
Qed.

Lemma shr_fexp_nonneg (m e : Z) (l : location) :
  0 <= m -> 0 <= shr_m (fst (shr_fexp prec emax m e l)).
Proof.
  intros Hm. unfold shr_fexp, shr.
  destruct (fexp prec emax (Zdigits2 m + e) - e) as [| q | q]; cbn [fst];
    try (rewrite shr_m_of_loc; exact Hm).
  apply iter_shr_1_nonneg. rewrite shr_m_of_loc. exact Hm.
Qed.

(** Rounding a non-negative mantissa gives a zero, a finite value or an
    infinity of the requested sign, never [NaN]. *)
Lemma binary_round_aux_sign (s : bool) (m e : Z) (l : location) :
  0 <= m ->
  match binary_round_aux prec emax s m e l with
  | S754_zero s' | S754_finite s' _ _ | S754_infinity s' => s' = s
  | S754_nan => False
  end.
Proof.
  intros Hm. unfold binary_round_aux.
  pose proof (shr_fexp_nonneg m e l Hm) as H1.
  destruct (shr_fexp prec emax m e l) as [mrs' e']. cbn [fst] in H1.
  pose proof (round_nearest_even_lower (shr_m mrs')
                (loc_of_shr_record mrs')) as Hr.
  pose proof (shr_fexp_nonneg
                (round_nearest_even (shr_m mrs') (loc_of_shr_record mrs'))
                e' loc_Exact ltac:(lia)) as H2.
  destruct (shr_fexp prec emax _ e' loc_Exact) as [mrs'' e''].
  cbn [fst] in H2.
  destruct (shr_m mrs'') as [| m3 | m3]; try lia; [reflexivity |].
  destruct (e'' <=? emax - prec); reflexivity.
Qed.

Lemma SFmul_pos (x y : spec_float) :
  SFltb (S754_zero false) x = true -> SFltb (S754_zero false) y = true ->
  SFleb (S754_zero false) (SF64mul x y) = true.
Proof.
  intros Hx Hy.
  destruct x as [sx | sx | | sx mx ex], y as [sy | sy | | sy my ey];
    try discriminate;
    try (destruct sx; try discriminate; destruct sy; try discriminate;
         reflexivity).
  destruct sx; try discriminate. destruct sy; try discriminate.
  unfold SF64mul, SFmul. cbn [xorb].
  pose proof (binary_round_aux_sign false (Z.pos (mx * my)) (ex + ey)
                loc_Exact ltac:(lia)) as H.
  destruct (binary_round_aux _ _ _ _ _ _) as [s | s | | s m e];
    try tauto; subst; reflexivity.
Qed.

Lemma SFdiv_core_nonneg (mx my : positive) (ex ey : Z) :
  0 <= fst (fst (SFdiv_core_binary prec emax (Z.pos mx) ex (Z.pos my) ey)).
Proof.
  unfold SFdiv_core_binary. cbv zeta.
  set (sh := ex - ey - _).
  set (m' := match sh with
             | 0 => Z.pos mx
             | Z.pos _ => Z.shiftl (Z.pos mx) sh
             | Z.neg _ => 0
             end).
  assert (Hm : 0 <= m').
  { unfold m'. destruct sh; try lia. apply Z.shiftl_nonneg. lia. }
  pose proof (Z_div_mod m' (Z.pos my) ltac:(lia)) as Hd.
  destruct (Z.div_eucl m' (Z.pos my)) as [q r]. cbn [fst].
  destruct Hd as [Heq Hr]. nia.
Qed.

Lemma SFdiv_nonneg_pos (x y : spec_float) :
  SFleb (S754_zero false) x = true -> SFltb (S754_zero false) y = true ->
  SFltb y (S754_infinity false) = true ->
  SFleb (S754_zero false) (SF64div x y) = true.
Proof.
  intros Hx Hy Hfin.
  destruct x as [sx | sx | | sx mx ex], y as [sy | sy | | sy my ey];
    try discriminate;
    try (destruct sx; try discriminate; destruct sy; try discriminate;
         reflexivity);
    try (destruct sy; try discriminate; reflexivity).
  destruct sx; try discriminate. destruct sy; try discriminate.
  unfold SF64div, SFdiv. cbn [xorb].
  pose proof (SFdiv_core_nonneg mx my ex ey) as Hq.
  destruct (SFdiv_core_binary prec emax (Z.pos mx) ex (Z.pos my) ey)
    as [[mz ez] lz]. cbn [fst] in Hq.
  pose proof (binary_round_aux_sign false mz ez lz Hq) as H.
  destruct (binary_round_aux _ _ _ _ _ _) as [s | s | | s m e];
    try tauto; subst; reflexivity.
Qed.

Lemma zeq_nonzero (a b : spec_float) :
  zeq a b -> SFltb (S754_zero false) a = true -> a = b.
Proof.
  destruct a as [sa | sa | | sa ma ea], b; cbn [zeq]; intros H Hp;
    try exact H; discriminate.
Qed.

Local Open Scope float_scope.

Lemma mul_pos (x y : float) :
  (0 <? x) = true -> (0 <? y) = true -> (0 <=? x * y) = true.
Proof.
  rewrite FloatAxioms.leb_spec, !FloatAxioms.ltb_spec, FloatAxioms.mul_spec,
    Prim2SF_zero.
  apply SFmul_pos.
Qed.

Lemma div_nonneg_pos (x y : float) :
  (0 <=? x) = true -> (0 <? y) = true -> (y <? infinity) = true ->
  (0 <=? x / y) = true.
Proof.
  rewrite !FloatAxioms.leb_spec, !FloatAxioms.ltb_spec, FloatAxioms.div_spec,
    Prim2SF_zero.
  change (Prim2SF infinity) with (S754_infinity false).
  apply SFdiv_nonneg_pos.
Qed.

Lemma ltb_leb (x : float) : (0 <? x) = true -> (0 <=? x) = true.
Proof.
  rewrite FloatAxioms.leb_spec, FloatAxioms.ltb_spec, Prim2SF_zero.
  unfold SFltb, SFleb. destruct (SFcompare _ _) as [[]|]; congruence.
Qed.

(** Two values equal up to the sign of a zero are equal when one of them is
    positive. *)
Lemma zeq_pos (x y : float) :
  zeq (Prim2SF x) (Prim2SF y) -> (0 <? x) = true -> x = y.
Proof.
  rewrite FloatAxioms.ltb_spec, Prim2SF_zero. intros Hz Hp.
  apply Prim2SF_inj, zeq_nonzero; assumption.
Qed.

End FloatSigns.

(** * More on the derivation *)

Module DerivationMore.

Import FloatFacts JSFacts.

(** X1.  On sales-complete records the computed fields of the result depend
    on the raw fields of the input only: whatever computed fields, identity
    or timestamps two such records carry, equal raw fields give equal
    computed fields.  On pending records the same holds of
    [totalPurchaseCost], and of the other computed fields when both inputs
    carry none, since the derivation leaves those as they are. *)
Theorem derivation_reads_raw_only (a b : WeeklyRecord) :
  Fields.sameRaw a b ->
  totalPurchaseCost (calculateRecordMetrics a)
  = totalPurchaseCost (calculateRecordMetrics b)
  /\ (isSalesEntryComplete a = true
      \/ (salesMetricsUnset a /\ salesMetricsUnset b) ->
      Fields.sameComputed (calculateRecordMetrics a)
        (calculateRecordMetrics b)).
Proof.
  intros (Hh & Hw & Hr & Hf & Hp & Hc & Hu & Ht & He).
  unfold calculateRecordMetrics, Fields.sameComputed.
  rewrite Hh, Hw, Hr, Hf, Hp, Hc, Hu, Ht, He.
  destruct (isSalesEntryComplete b) eqn:Hb; cbn.
  - split; [reflexivity |]. intros _. repeat split; reflexivity.
  - split; [reflexivity |].
    intros [Ha | [(A1 & A2 & A3 & A4 & A5 & A6 & A7 & A8)
                    (B1 & B2 & B3 & B4 & B5 & B6 & B7 & B8)]].
    + discriminate.
    + rewrite A1, A2, A3, A4, A5, A6, A7, A8, B1, B2, B3, B4, B5, B6, B7, B8.
      repeat split; reflexivity.
Qed.

Lemma derivation_reads_raw_only_witness :
  Fields.sameRaw Examples.worked (calculateRecordMetrics Examples.worked)
  /\ Fields.sameComputed (calculateRecordMetrics Examples.worked)
       (calculateRecordMetrics (calculateRecordMetrics Examples.worked)).
Proof.
  assert (H : Fields.sameRaw Examples.worked
                (calculateRecordMetrics Examples.worked))
    by (repeat split; reflexivity).
  split; [exact H |].
  apply (derivation_reads_raw_only _ _ H). left. reflexivity.
Defined.



End DerivationMore.

(** * What the forms send to [saveRecord] *)

Module SubmissionMore.

Import FloatFacts FloatSigns JSFacts.

Section WithNumber.
Variable Number : string -> float.

Lemma purchaseSubmission_inv (existing : option WeeklyRecord)
    (fd : PurchaseForm.formData) (now : string) (r' : WeeklyRecord) :
  Save.purchaseSubmission Number existing fd now = Some r' ->
  Checks.purchase Number fd
  /\ r' = calculateRecordMetrics
            (PurchaseForm.buildRecord Number existing fd now).
Proof.
  unfold Save.purchaseSubmission, PurchaseForm.handleSubmit.
  pose proof (Validation.purchase_accepts Number fd) as Hv.
  destruct (PurchaseForm.validate Number fd) as [e []]; cbn;
    [| discriminate].
  intros [= <-]. split; [apply Hv |]; reflexivity.
Qed.

Lemma salesSubmission_inv (record : WeeklyRecord) (fd : SalesForm.formData)
    (now : string) (r' : WeeklyRecord) :
  Save.salesSubmission Number record fd now = Some r' ->
  Checks.sales Number fd
  /\ r' = calculateRecordMetrics
            (SalesForm.updatedRecord Number record fd now).
Proof.
  unfold Save.salesSubmission, SalesForm.handleSubmit.
  pose proof (Validation.sales_accepts Number fd) as Hv.
  destruct (SalesForm.validate Number fd) as [e []]; cbn;
    [| discriminate].
  intros [= <-]. split; [apply Hv |]; reflexivity.
Qed.

Lemma positive_gt (text : string) :
  Checks.positive Number text -> is_nan (Number text) = false ->
  (0 <? Number text) = true.
Proof. intros [_ H] Hn. apply leb_zero_false; assumption. Qed.

Lemma numOrZero_pos (v : float) :
  (0 <? v) = true -> JS.numOrZero v = v.
Proof. apply orZero_pos. Qed.

End WithNumber.

(** X3.  Whatever record a form is opened on, the record that leaves
    [saveRecord] after a submission carries the sales-stage computed fields
    exactly when it is sales-complete: a purchase submission drops every
    stored computed field before the derivation runs, and a sales
    submission sets the flag, so the derivation writes them all. *)
Theorem submitted_records_are_consistent (Number : string -> float) :
  (forall existing fd now r',
     Save.purchaseSubmission Number existing fd now = Some r' ->
     Fields.consistent r')
  /\ (forall record fd now r',
        Save.salesSubmission Number record fd now = Some r' ->
        isSalesEntryComplete r' = true /\ Fields.consistent r').
Proof.
  split.
  - intros existing fd now r' [_ ->]%purchaseSubmission_inv.
    unfold Fields.consistent, calculateRecordMetrics.
    destruct existing as [[? ? ? ? ? ? ? ? [] ? ? ? ? ? ? ? ? ? ? ? ? ?] |];
      cbn; repeat split; eauto.
  - intros record fd now r' [_ ->]%salesSubmission_inv.
    unfold Fields.consistent, calculateRecordMetrics. cbn.
    repeat split; eauto.
Qed.

Lemma submitted_records_are_consistent_witness :
  exists r',
    Save.salesSubmission Decimal.Number Examples.purchaseOnly
      Examples.oversoldForm "2025-01-05T10:00:00.000Z" = Some r'
    /\ isSalesEntryComplete r' = true /\ Fields.consistent r'.
Proof.
  eexists. split; [vm_compute; reflexivity |].
  apply (proj2 (submitted_records_are_consistent Decimal.Number)
           Examples.purchaseOnly Examples.oversoldForm
           "2025-01-05T10:00:00.000Z").
  vm_compute. reflexivity.
Defined.

(** X4.  A purchase form opened on no record sends a record with an empty
    [id], [createdAt] stamped now, the date and numbers of the form, no
    sales input, no sales-stage computed field and the flag unset; its week
    date is not empty, its hen count is an integer and its
    [totalPurchaseCost] is live weight times rate. *)
Theorem new_purchase_record (Number : string -> float)
    (fd : PurchaseForm.formData) (now : string) (r' : WeeklyRecord) :
  Save.purchaseSubmission Number None fd now = Some r' ->
  id r' = "" /\ createdAt r' = Some now
  /\ weekDate r' = PurchaseForm.date fd /\ weekDate r' <> ""
  /\ totalHens r' = Number (PurchaseForm.totalHens fd)
  /\ JS.isInteger (totalHens r') = true
  /\ isSalesEntryComplete r' = false
  /\ Fields.salesInputsUnset r' /\ salesMetricsUnset r'
  /\ totalPurchaseCost r'
     = Number (PurchaseForm.totalLiveWeight fd)
       * Number (PurchaseForm.purchaseRate fd).
Proof.
  intros [(Hd & (_ & _ & Hi) & _) ->]%purchaseSubmission_inv.
  cbn. repeat split; try reflexivity; assumption.
Qed.

Lemma new_purchase_record_witness :
  exists r',
    Save.purchaseSubmission Decimal.Number None (Examples.purchaseForm "150")
      "2025-01-04T06:30:00.000Z" = Some r'
    /\ id r' = "" /\ totalPurchaseCost r' = 12000.
Proof.
  eexists. split; [vm_compute; reflexivity |].
  split; eapply (new_purchase_record Decimal.Number
                   (Examples.purchaseForm "150")
                   "2025-01-04T06:30:00.000Z");
    vm_compute; reflexivity.
Defined.

(** X5.  A purchase form opened on a stored record sends back its [id],
    its completion time, its flag and its sales inputs unchanged, and its
    [createdAt] unless that is absent or empty, in which case it is stamped
    now.  Nothing else of the stored record is read: two stored records
    that agree on those fields give the same submission, so the stored
    computed fields have no influence. *)
Theorem purchase_edit_keeps_sales_side (Number : string -> float)
    (r : WeeklyRecord) (fd : PurchaseForm.formData) (now : string)
    (r' : WeeklyRecord) :
  Save.purchaseSubmission Number (Some r) fd now = Some r' ->
  (id r' = id r
   /\ createdAt r' = Some (JS.strOr (createdAt r) now)
   /\ (createdAt r = None \/ createdAt r = Some "" ->
       createdAt r' = Some now)
   /\ salesCompletedAt r' = salesCompletedAt r
   /\ isSalesEntryComplete r' = isSalesEntryComplete r
   /\ sellingPrice r' = sellingPrice r
   /\ cashCollected r' = cashCollected r
   /\ upiCollected r' = upiCollected r
   /\ expenseTea r' = expenseTea r
   /\ expenseFuel r' = expenseFuel r)
  /\ (forall r2,
        id r2 = id r -> createdAt r2 = createdAt r ->
        salesCompletedAt r2 = salesCompletedAt r ->
        isSalesEntryComplete r2 = isSalesEntryComplete r ->
        sellingPrice r2 = sellingPrice r ->
        cashCollected r2 = cashCollected r ->
        upiCollected r2 = upiCollected r ->
        expenseTea r2 = expenseTea r -> expenseFuel r2 = expenseFuel r ->
        Save.purchaseSubmission Number (Some r2) fd now = Some r').
Proof.
  intros H. pose proof H as [_ ->]%purchaseSubmission_inv. split.
  - unfold calculateRecordMetrics.
    destruct (isSalesEntryComplete r) eqn:Hf; cbn; rewrite ?Hf; cbn;
      repeat split; try reflexivity;
      try (destruct (id r); reflexivity);
      intros [-> | ->]; reflexivity.
  - intros r2 H1 H2 H3 H4 H5 H6 H7 H8 H9. rewrite <- H.
    unfold Save.purchaseSubmission, PurchaseForm.handleSubmit,
      PurchaseForm.buildRecord.
    cbn. rewrite H1, H2, H3, H4, H5, H6, H7, H8, H9. reflexivity.
Qed.

Lemma purchase_edit_keeps_sales_side_witness :
  exists r',
    Save.purchaseSubmission Decimal.Number (Some Examples.worked)
      (Examples.purchaseForm "160") "2025-01-06T08:00:00.000Z" = Some r'
    /\ Save.purchaseSubmission Decimal.Number
         (Some (calculateRecordMetrics Examples.worked))
         (Examples.purchaseForm "160") "2025-01-06T08:00:00.000Z" = Some r'.
Proof.
  eexists. split; [vm_compute; reflexivity |].
  eapply (purchase_edit_keeps_sales_side Decimal.Number Examples.worked);
    [vm_compute; reflexivity | reflexivity ..].
Defined.

(** X6.  For an accepted purchase form whose weight and rate are numbers,
    the estimated cost shown under the inputs is the [totalPurchaseCost]
    that is stored, and it is not negative (and so not [NaN]). *)
Theorem estimated_cost_is_stored (Number : string -> float)
    (existing : option WeeklyRecord) (fd : PurchaseForm.formData)
    (now : string) (r' : WeeklyRecord) :
  Checks.numericPurchase Number fd ->
  Save.purchaseSubmission Number existing fd now = Some r' ->
  totalPurchaseCost r' = PurchaseView.calculatedCost Number fd
  /\ (0 <=? totalPurchaseCost r') = true.
Proof.
  intros (Hnw & Hnr) [(_ & _ & Hw & Hr) ->]%purchaseSubmission_inv.
  apply positive_gt in Hw; [| exact Hnw].
  apply positive_gt in Hr; [| exact Hnr].
  unfold PurchaseView.calculatedCost.
  rewrite (numOrZero_pos _ Hw), (numOrZero_pos _ Hr).
  assert (Hc : totalPurchaseCost
                 (calculateRecordMetrics
                    (PurchaseForm.buildRecord Number existing fd now))
               = Number (PurchaseForm.totalLiveWeight fd)
                 * Number (PurchaseForm.purchaseRate fd)).
  { unfold calculateRecordMetrics.
    destruct (negb _); reflexivity. }
  rewrite Hc. split; [reflexivity |]. apply mul_pos; assumption.
Qed.

Lemma estimated_cost_is_stored_witness :
  Checks.numericPurchase Decimal.Number (Examples.purchaseForm "150")
  /\ exists r',
       Save.purchaseSubmission Decimal.Number None
         (Examples.purchaseForm "150") "2025-01-04T06:30:00.000Z" = Some r'
       /\ totalPurchaseCost r'
          = PurchaseView.calculatedCost Decimal.Number
              (Examples.purchaseForm "150")
       /\ (0 <=? totalPurchaseCost r') = true.
Proof.
  assert (Hn : Checks.numericPurchase Decimal.Number
                 (Examples.purchaseForm "150")) by (split; reflexivity).
  split; [exact Hn |]. eexists. split; [vm_compute; reflexivity |].
  eapply (estimated_cost_is_stored Decimal.Number None
            (Examples.purchaseForm "150") "2025-01-04T06:30:00.000Z");
    [exact Hn | vm_compute; reflexivity].
Defined.

(** X7.  For an accepted sales form whose numbers are not [NaN], the
    figures shown while typing are the ones stored: the revenue is
    [totalRevenue], the estimated meat sold is [meatSold] and the live
    weight compared against is [totalLiveWeight].  The stored revenue is
    positive, the stored purchase cost is not negative, the stored meat
    sold is not negative when the price is finite, and when the warning is
    shown the stored wastage is negative. *)
Theorem sales_preview_is_stored (Number : string -> float)
    (record : WeeklyRecord) (fd : SalesForm.formData) (now : string)
    (r' : WeeklyRecord) :
  Checks.numericSales Number fd ->
  Save.salesSubmission Number record fd now = Some r' ->
  totalRevenue r' = Some (SalesForm.revenue Number fd)
  /\ meatSold r' = Some (SalesForm.estMeatSold Number fd)
  /\ totalLiveWeight r' = SalesForm.currentLiveWeight Number fd
  /\ (0 <? SalesForm.revenue Number fd) = true
  /\ (0 <=? totalPurchaseCost r') = true
  /\ ((Number (SalesForm.sellingPrice fd) <? infinity) = true ->
      (0 <=? SalesForm.estMeatSold Number fd) = true)
  /\ (SalesForm.warningShown Number fd = true ->
      exists waste, wastage r' = Some waste /\ (waste <? 0) = true).
Proof.
  intros (Hnw & Hnr & Hnp & Hnc & Hnu & _ & _)
    [(_ & Hw & Hr & Hp & Hc & Hu & Hsum & _) ->]%salesSubmission_inv.
  apply positive_gt in Hw; [| exact Hnw].
  apply positive_gt in Hr; [| exact Hnr].
  apply positive_gt in Hp; [| exact Hnp].
  apply (ltb_zero_false _ Hnc) in Hc. apply (ltb_zero_false _ Hnu) in Hu.
  unfold JS.gtb in Hsum. rewrite Hp in Hsum. cbn [andb] in Hsum.
  assert (Hrev : (0 <? SalesForm.revenue Number fd) = true).
  { unfold SalesForm.revenue. apply leb_zero_false; [| exact Hsum].
    apply leb_zero_not_nan, add_nonneg; assumption. }
  assert (Heq : JS.orZero (Some (Number (SalesForm.cashCollected fd)))
                + JS.orZero (Some (Number (SalesForm.upiCollected fd)))
                = SalesForm.revenue Number fd).
  { symmetry. apply zeq_pos; [| exact Hrev]. unfold SalesForm.revenue.
    rewrite !FloatAxioms.add_spec.
    apply SFadd_zeq; apply zeq_orZero; assumption. }
  assert (Hest : SalesForm.estMeatSold Number fd
                 = SalesForm.revenue Number fd
                   / Number (SalesForm.sellingPrice fd)).
  { unfold SalesForm.estMeatSold, JS.gtb. rewrite Hp. reflexivity. }
  unfold calculateRecordMetrics.
  cbn [SalesForm.updatedRecord isSalesEntryComplete negb totalRevenue
       meatSold totalLiveWeight totalPurchaseCost wastage sellingPrice
       cashCollected upiCollected purchaseRate].
  rewrite Heq, gtb_orZero. unfold JS.gtb. rewrite Hp.
  change (0 <? Number (SalesForm.sellingPrice fd))
    with (JS.gtb (Number (SalesForm.sellingPrice fd)) 0) in Hp.
  rewrite (orZero_pos _ Hp), <- Hest. unfold JS.gtb in Hp.
  split; [reflexivity |]. split; [reflexivity |].
  split; [unfold SalesForm.currentLiveWeight;
          rewrite (numOrZero_pos _ Hw); reflexivity |].
  split; [exact Hrev |]. split; [apply mul_pos; assumption |].
  split.
  - intros Hfin. rewrite Hest.
    apply div_nonneg_pos; [apply ltb_leb, Hrev | exact Hp | exact Hfin].
  - unfold SalesForm.warningShown, SalesForm.currentLiveWeight, JS.gtb.
    rewrite (numOrZero_pos _ Hw). intros Hwarn.
    eexists. split; [reflexivity |]. apply sub_neg_of_lt, Hwarn.
Qed.

Lemma sales_preview_is_stored_witness :
  Checks.numericSales Decimal.Number Examples.oversoldForm
  /\ exists r',
       Save.salesSubmission Decimal.Number Examples.purchaseOnly
         Examples.oversoldForm "2025-01-05T10:00:00.000Z" = Some r'
       /\ totalRevenue r' = Some 600 /\ meatSold r' = Some 60
       /\ exists waste, wastage r' = Some waste /\ (waste <? 0) = true.
Proof.
  assert (Hn : Checks.numericSales Decimal.Number Examples.oversoldForm)
    by (repeat split; reflexivity).
  split; [exact Hn |]. eexists. split; [vm_compute; reflexivity |].
  split; [reflexivity |]. split; [reflexivity |].
  eapply (sales_preview_is_stored Decimal.Number Examples.purchaseOnly
            Examples.oversoldForm "2025-01-05T10:00:00.000Z");
    [exact Hn | vm_compute; reflexivity | vm_compute; reflexivity].
Defined.

End SubmissionMore.

(** * The error mapping, field by field *)

Module ErrorMapping.

Import FloatFacts JSFacts.

Lemma lookup_when_reject_eq (c : bool) (f m : string) (st : errors * bool) :
  (when c (reject f m) st).1 !! f = if c then Some m else st.1 !! f.
Proof. destruct c; cbn; [apply lookup_insert_eq | reflexivity]. Qed.

Lemma lookup_when_reject_ne (k : string) (c : bool) (f m : string)
    (st : errors * bool) :
  k <> f -> (when c (reject f m) st).1 !! k = st.1 !! k.
Proof.
  intros Hne. destruct c; cbn; [| reflexivity].
  apply lookup_insert_ne. congruence.
Qed.

Lemma lookup_when_reject_inv (k : string) (c : bool) (f m : string)
    (st : errors * bool) :
  is_Some ((when c (reject f m) st).1 !! k) ->
  k = f \/ is_Some (st.1 !! k).
Proof.
  destruct (decide (k = f)) as [-> | Hne]; [left; reflexivity |].
  rewrite lookup_when_reject_ne by exact Hne. right. assumption.
Qed.

Lemma is_Some_if (c : bool) (m : string) :
  is_Some (if c then Some m else None) <-> c = true.
Proof.
  destruct c; split; intros H; try discriminate; eauto.
  destruct H as [? H]. discriminate.
Qed.

Section WithNumber.
Variable Number : string -> float.

Lemma positive_fails (text : string) :
  (JS.strEmpty text || (Number text <=? 0)) = true
  <-> ~ Checks.positive Number text.
Proof.
  unfold Checks.positive. rewrite <- strEmpty_false.
  destruct (JS.strEmpty text), (Number text <=? 0); cbn; intuition congruence.
Qed.

Lemma positiveWhole_fails (text : string) :
  (JS.strEmpty text || (Number text <=? 0)
   || negb (JS.isInteger (Number text))) = true
  <-> ~ Checks.positiveWhole Number text.
Proof.
  unfold Checks.positiveWhole. rewrite <- strEmpty_false.
  destruct (JS.strEmpty text), (Number text <=? 0),
    (JS.isInteger (Number text)); cbn; intuition congruence.
Qed.

Lemma notNegative_fails (text : string) :
  (Number text <? 0) = true <-> ~ Checks.notNegative Number text.
Proof.
  unfold Checks.notNegative.
  destruct (Number text <? 0); intuition congruence.
Qed.

End WithNumber.

(** Reads the entry of one concrete field name off the chain of checks. *)
Ltac field_entry :=
  repeat first [ rewrite lookup_when_reject_eq
               | rewrite lookup_when_reject_ne by discriminate ];
  cbn [fst]; rewrite lookup_empty, is_Some_if.

(** Any name with an entry is the name of one of the checks. *)
Ltac entry_names :=
  let k := fresh "k" in
  let H := fresh "H" in
  intros k H;
  repeat (apply lookup_when_reject_inv in H as [-> | H]; [set_solver |]);
  cbn [fst] in H; rewrite lookup_empty in H; destruct H; discriminate.

(** X8.  Every check of a form is reported on its own: the error mapping
    has an entry for a field exactly when that field's check fails, whatever
    the other fields hold, and it has no entry under any other name.  The
    revenue check of the sales form is reported under [general]. *)
Theorem errors_name_the_failing_fields (Number : string -> float) :
  (forall fd,
     let e := (PurchaseForm.validate Number fd).1 in
     (is_Some (e !! "date") <-> PurchaseForm.date fd = "")
     /\ (is_Some (e !! "totalHens")
         <-> ~ Checks.positiveWhole Number (PurchaseForm.totalHens fd))
     /\ (is_Some (e !! "totalLiveWeight")
         <-> ~ Checks.positive Number (PurchaseForm.totalLiveWeight fd))
     /\ (is_Some (e !! "purchaseRate")
         <-> ~ Checks.positive Number (PurchaseForm.purchaseRate fd))
     /\ (forall k, is_Some (e !! k) ->
         k ∈ ["date"; "totalHens"; "totalLiveWeight"; "purchaseRate"]))
  /\ (forall fd,
        let e := (SalesForm.validate Number fd).1 in
        (is_Some (e !! "totalHens")
         <-> ~ Checks.positiveWhole Number (SalesForm.totalHens fd))
        /\ (is_Some (e !! "totalLiveWeight")
            <-> ~ Checks.positive Number (SalesForm.totalLiveWeight fd))
        /\ (is_Some (e !! "purchaseRate")
            <-> ~ Checks.positive Number (SalesForm.purchaseRate fd))
        /\ (is_Some (e !! "sellingPrice")
            <-> ~ Checks.positive Number (SalesForm.sellingPrice fd))
        /\ (is_Some (e !! "cashCollected")
            <-> ~ Checks.notNegative Number (SalesForm.cashCollected fd))
        /\ (is_Some (e !! "upiCollected")
            <-> ~ Checks.notNegative Number (SalesForm.upiCollected fd))
        /\ (is_Some (e !! "general")
            <-> (JS.gtb (Number (SalesForm.sellingPrice fd)) 0
                 && (Number (SalesForm.cashCollected fd)
                     + Number (SalesForm.upiCollected fd) <=? 0)) = true)
        /\ (is_Some (e !! "expenseTea")
            <-> ~ Checks.notNegative Number (SalesForm.expenseTea fd))
        /\ (is_Some (e !! "expenseFuel")
            <-> ~ Checks.notNegative Number (SalesForm.expenseFuel fd))
        /\ (forall k, is_Some (e !! k) ->
            k ∈ ["totalHens"; "totalLiveWeight"; "purchaseRate";
                 "sellingPrice"; "cashCollected"; "upiCollected"; "general";
                 "expenseTea"; "expenseFuel"])).
Proof.
  split; intros fd e; subst e.
  - unfold PurchaseForm.validate. cbv zeta.
    split_and?; [field_entry .. | entry_names].
    + apply bool_decide_eq_true.
    + apply positiveWhole_fails.
    + apply positive_fails.
    + apply positive_fails.
  - unfold SalesForm.validate. cbv zeta.
    split_and?; [field_entry .. | entry_names].
    + apply positiveWhole_fails.
    + apply positive_fails.
    + apply positive_fails.
    + apply positive_fails.
    + apply notNegative_fails.
    + apply notNegative_fails.
    + reflexivity.
    + apply notNegative_fails.
    + apply notNegative_fails.
Qed.

End ErrorMapping.

(** * The history list and the dashboard totals *)

Module Listing.

Lemma filter_all (A : Type) (p : A -> bool) (l : list A) :
  (forall x, p x = true) -> List.filter p l = l.
Proof.
  intros Hp. induction l as [| x l IH]; cbn; [reflexivity |].
  rewrite Hp, IH. reflexivity.
Qed.

Lemma filter_ext_bool (A : Type) (p q : A -> bool) (l : list A) :
  (forall x, p x = q x) -> List.filter p l = List.filter q l.
Proof.
  intros Hpq. induction l as [| x l IH]; cbn; [reflexivity |].
  rewrite Hpq, IH. reflexivity.
Qed.

Lemma filter_split_perm (A : Type) (c k : A -> bool) (l : list A) :
  List.filter (fun x => c x && k x) l
  ++ List.filter (fun x => negb (c x) && k x) l
  ≡ₚ List.filter k l.
Proof.
  induction l as [| x l IH]; cbn; [reflexivity |].
  destruct (c x), (k x); cbn; rewrite <- ?IH; try reflexivity.
  symmetry. apply Permutation_middle.
Qed.

Lemma filter_filter_agree (A : Type) (p k1 k2 : A -> bool) (l : list A) :
  (forall x, p x = true -> k1 x = k2 x) ->
  List.filter p (List.filter k1 l) = List.filter p (List.filter k2 l).
Proof.
  intros H. induction l as [| x l IH]; [reflexivity |]. cbn [List.filter].
  destruct (p x) eqn:Hp.
  - rewrite (H x Hp). destruct (k2 x); cbn [List.filter]; rewrite ?Hp, IH;
      reflexivity.
  - destruct (k1 x), (k2 x); cbn [List.filter]; rewrite ?Hp; exact IH.
Qed.

Section WithNumber.
Variable Number : string -> float.

Lemma keeps_pending_any_minimum (f : History.filters) (minimum : string)
    (r : WeeklyRecord) :
  isSalesEntryComplete r = false ->
  History.keeps Number (History.onChangeMinProfit f minimum) r
  = History.keeps Number f r.
Proof.
  intros Hf. unfold History.keeps. cbn. rewrite Hf, !andb_false_r.
  reflexivity.
Qed.

Lemma keeps_completed (f : History.filters) (r : WeeklyRecord) :
  History.keeps Number (History.onChangeStatus f "completed") r
  = isSalesEntryComplete r
    && History.keeps Number (History.onChangeStatus f "all") r.
Proof. unfold History.keeps. cbn. destruct (isSalesEntryComplete r); reflexivity. Qed.

Lemma keeps_pending (f : History.filters) (r : WeeklyRecord) :
  History.keeps Number (History.onChangeStatus f "pending") r
  = negb (isSalesEntryComplete r)
    && History.keeps Number (History.onChangeStatus f "all") r.
Proof. unfold History.keeps. cbn. destruct (isSalesEntryComplete r); reflexivity. Qed.

End WithNumber.

(** X9.  When no filter is active the history lists every record, in the
    order given; this is the state [clearFilters] restores. *)
Theorem inactive_filters_list_everything (Number : string -> float)
    (f : History.filters) (records : list WeeklyRecord) :
  History.hasActiveFilters History.clearFilters = false
  /\ (History.hasActiveFilters f = false ->
      History.filteredRecords Number f records = records).
Proof.
  split; [reflexivity |].
  unfold History.hasActiveFilters. rewrite !orb_false_iff, !negb_false_iff.
  intros (((Hs & Ha) & Hb) & Hm). apply String.eqb_eq in Hs.
  apply filter_all. intros r. unfold History.keeps.
  rewrite Hs, Ha, Hb, Hm. reflexivity.
Qed.

Lemma inactive_filters_list_everything_witness :
  History.filteredRecords Decimal.Number History.clearFilters
    [Examples.worked; Examples.purchaseOnly]
  = [Examples.worked; Examples.purchaseOnly].
Proof.
  apply (inactive_filters_list_everything Decimal.Number History.clearFilters).
  reflexivity.
Defined.

(** X10.  The status filter partitions the listing: with the other filters
    left as they are, the records listed under [completed] are all
    sales-complete, those listed under [pending] are all pending, and
    together they are the records listed under [all].  Any other status
    value lists what [all] lists. *)
Theorem status_filter_partitions (Number : string -> float)
    (f : History.filters) (records : list WeeklyRecord) :
  let listed s :=
    History.filteredRecords Number (History.onChangeStatus f s) records in
  listed "completed" ++ listed "pending" ≡ₚ listed "all"
  /\ Forall (fun r => isSalesEntryComplete r = true) (listed "completed")
  /\ Forall (fun r => isSalesEntryComplete r = false) (listed "pending")
  /\ (forall s, s <> "completed" -> s <> "pending" -> listed s = listed "all").
Proof.
  cbv zeta. unfold History.filteredRecords. split; [| split; [| split]].
  - rewrite (filter_ext_bool _ _ _ records (keeps_completed Number f)),
      (filter_ext_bool _ _ _ records (keeps_pending Number f)).
    apply filter_split_perm.
  - apply Forall_forall. intros r [_ Hk]%list_elem_of_In%filter_In.
    rewrite keeps_completed in Hk. apply andb_prop in Hk as [Hk _]. exact Hk.
  - apply Forall_forall. intros r [_ Hk]%list_elem_of_In%filter_In.
    rewrite keeps_pending in Hk. apply andb_prop in Hk as [Hk _].
    apply negb_true_iff in Hk. exact Hk.
  - intros s H1 H2. apply filter_ext_bool. intros r. unfold History.keeps.
    cbn. apply String.eqb_neq in H1, H2. rewrite H1, H2. reflexivity.
Qed.

(** X11.  The minimum-profit filter never hides a pending record: the
    pending records listed are the same whatever minimum is entered.  A
    completed record without [netProfit] is compared as profit [0]. *)
Theorem min_profit_filter_spares_pending (Number : string -> float)
    (f : History.filters) (minimum : string) (records : list WeeklyRecord) :
  List.filter (fun r => negb (isSalesEntryComplete r))
    (History.filteredRecords Number
       (History.onChangeMinProfit f minimum) records)
  = List.filter (fun r => negb (isSalesEntryComplete r))
      (History.filteredRecords Number f records)
  /\ (forall r,
        isSalesEntryComplete r = true -> netProfit r = None ->
        History.keeps Number (History.mkFilters "all" "" "" minimum) r
        = negb (negb (JS.strEmpty minimum) && (0 <? Number minimum))).
Proof.
  split.
  - unfold History.filteredRecords. apply filter_filter_agree.
    intros r Hf%negb_true_iff. apply keeps_pending_any_minimum, Hf.
  - intros r Hf Hn. unfold History.keeps. cbn. rewrite Hf, Hn. cbn.
    destruct (JS.strEmpty minimum); cbn; [reflexivity |].
    destruct (0 <? Number minimum); reflexivity.
Qed.

Lemma fold_add_pending (records : list WeeklyRecord) (acc : Dashboard.totals) :
  fold_left Dashboard.add records acc
  = fold_left Dashboard.add (List.filter isSalesEntryComplete records) acc.
Proof.
  revert acc. induction records as [| r records IH]; intros acc;
    [reflexivity |].
  cbn [fold_left List.filter]. destruct (isSalesEntryComplete r) eqn:Hf.
  - cbn [fold_left]. apply IH.
  - unfold Dashboard.add at 2. rewrite Hf. apply IH.
Qed.

(** X12.  The lifetime totals count sales-complete records only: pending
    records change nothing, whatever computed fields they carry, so the
    totals of a list are the totals of its completed records, and a list
    of pending records totals zero.  Appending a completed record adds its
    revenue, profit and meat sold, an absent figure counting as [0]. *)
Theorem lifetime_totals_skip_pending (records : list WeeklyRecord) :
  Dashboard.lifetimeStats records
  = Dashboard.lifetimeStats (List.filter isSalesEntryComplete records)
  /\ (Forall (fun r => isSalesEntryComplete r = false) records ->
      Dashboard.lifetimeStats records = Dashboard.mkTotals 0 0 0)
  /\ (forall r,
        Dashboard.lifetimeStats (records ++ [r])
        = if isSalesEntryComplete r
          then {| Dashboard.revenue :=
                    Dashboard.revenue (Dashboard.lifetimeStats records)
                    + JS.orZero (totalRevenue r);
                  Dashboard.profit :=
                    Dashboard.profit (Dashboard.lifetimeStats records)
                    + JS.orZero (netProfit r);
                  Dashboard.meat :=
                    Dashboard.meat (Dashboard.lifetimeStats records)
                    + JS.orZero (meatSold r) |}
          else Dashboard.lifetimeStats records).
Proof.
  unfold Dashboard.lifetimeStats. split; [apply fold_add_pending |]. split.
  - intros Hall. rewrite fold_add_pending.
    replace (List.filter isSalesEntryComplete records) with (@nil WeeklyRecord);
      [reflexivity |].
    induction Hall as [| r records Hr _ IH]; [reflexivity |].
    cbn [List.filter]. rewrite Hr. exact IH.
  - intros r. rewrite fold_left_app. cbn [fold_left]. reflexivity.
Qed.

Lemma find_skips (A : Type) (p : A -> bool) (l1 l2 : list A) (x : A) :
  Forall (fun y => p y = false) l1 -> p x = true ->
  List.find p (l1 ++ x :: l2) = Some x.
Proof.
  intros Hl1 Hx. induction Hl1 as [| y l1 Hy _ IH]; cbn.
  - rewrite Hx. reflexivity.
  - rewrite Hy. exact IH.
Qed.

(** X13.  The record the dashboard displays is one of the completed
    records: the first whose [id] is the selected one, that is the record
    with that [id] before which no record of the list has it, and the first
    of the list when no completed record has that [id] (nothing selected
    yet, or the selected record gone).  Nothing is displayed only when
    there is no completed record. *)
Theorem display_record_falls_back (completed : list WeeklyRecord)
    (selected : string) :
  (forall l1 r l2,
     completed = l1 ++ r :: l2 ->
     Forall (fun y => id y <> selected) l1 -> id r = selected ->
     Dashboard.displayRecord completed selected = Some r)
  /\ (Dashboard.displayRecord completed selected = None <-> completed = [])
  /\ (forall r, Dashboard.displayRecord completed selected = Some r ->
      In r completed
      /\ (id r = selected \/ Some r = head completed))
  /\ ((exists r, In r completed /\ id r = selected) ->
      exists r, Dashboard.displayRecord completed selected = Some r
                /\ id r = selected)
  /\ ((forall r, In r completed -> id r <> selected) ->
      Dashboard.displayRecord completed selected = head completed).
Proof.
  split.
  { intros l1 r l2 -> Hl1 Hid. unfold Dashboard.displayRecord.
    rewrite find_skips; [reflexivity | | apply String.eqb_eq, Hid].
    eapply Forall_impl; [exact Hl1 |].
    intros y Hy. apply String.eqb_neq, Hy. }
  unfold Dashboard.displayRecord.
  destruct (List.find _ completed) as [r0 |] eqn:Hfind.
  - apply find_some in Hfind as [Hin Hid]. apply String.eqb_eq in Hid.
    split; [| split; [| split]].
    + split; [discriminate |]. intros ->. destruct Hin.
    + intros r [= <-]. split; [exact Hin | left; exact Hid].
    + intros _. exists r0. split; [reflexivity | exact Hid].
    + intros Hno. destruct (Hno r0 Hin Hid).
  - split; [| split; [| split]].
    + destruct completed; cbn; split; congruence.
    + intros r Hr. split; [| right; symmetry; exact Hr].
      destruct completed as [| x l]; cbn in Hr; [discriminate |].
      injection Hr as <-. left. reflexivity.
    + intros (r & Hin & Hid).
      pose proof (find_none _ _ Hfind r Hin) as Hn. cbn in Hn.
      apply String.eqb_neq in Hn. contradiction.
    + reflexivity.
Qed.

End Listing.

(** * The session *)

Module Session.

Import AuthService.

Lemma authorization_header (ls : localStorage) :
  StorageService.getHeaders ls !! "Authorization"
  = Some match getAuthToken ls with
         | Some t => if JS.strEmpty t then "" else ("Bearer " ++ t)%string
         | None => ""
         end.
Proof.
  unfold StorageService.getHeaders.
  rewrite lookup_insert_ne by discriminate. apply lookup_singleton_eq.
Qed.

(** X14.  [login] succeeds exactly on the one e-mail and password, compared
    as they are; it then returns the administrator with a token made of
    [static_admin_token_] and the time, stores that token and the user, and
    touches no other key.  On any other input it throws and leaves the
    storage as it was. *)
Theorem login_checks_credentials (email password : string) (now : N)
    (ls : localStorage) :
  (email = STATIC_EMAIL /\ password = STATIC_PASS ->
   exists user ls',
     login email password now ls = (Returns user, ls')
     /\ AuthService.id user = "admin_user"
     /\ AuthService.email user = STATIC_EMAIL
     /\ token user
        = Some ("static_admin_token_" ++ JSText.numberToString now)%string
     /\ getAuthToken ls' = token user
     /\ ls' !! USER_KEY = Some (stringifyUser user)
     /\ (forall k, k <> TOKEN_KEY -> k <> USER_KEY -> ls' !! k = ls !! k))
  /\ (~ (email = STATIC_EMAIL /\ password = STATIC_PASS) ->
      login email password now ls
      = (Throws "Incorrect email or password", ls)).
Proof.
  unfold login. split.
  - intros [-> ->]. rewrite !String.eqb_refl. cbn [andb].
    do 2 eexists. split; [reflexivity |].
    repeat (split; [reflexivity |]). split; [| split].
    + unfold getAuthToken. rewrite lookup_insert_ne by discriminate.
      apply lookup_insert_eq.
    + apply lookup_insert_eq.
    + intros k H1 H2. rewrite !lookup_insert_ne by congruence. reflexivity.
  - intros Hne.
    destruct (String.eqb email STATIC_EMAIL) eqn:He;
      destruct (String.eqb password STATIC_PASS) eqn:Hp; try reflexivity.
    apply String.eqb_eq in He, Hp. destruct Hne. split; assumption.
Qed.

(** X15.  After [logout] there is no token and no current user, requests
    carry an empty [Authorization] header, and every other key of the
    storage is as before; logging out twice is logging out once.  After a
    successful [login] the header is [Bearer] followed by the token, and a
    [logout] after it leaves no trace of the session. *)
Theorem logout_clears_session (parse : string -> User) (now : N)
    (ls : localStorage) :
  getAuthToken (logout ls) = None
  /\ getCurrentUser parse (logout ls) = None
  /\ StorageService.getHeaders (logout ls) !! "Authorization" = Some ""
  /\ (forall k, k <> TOKEN_KEY -> k <> USER_KEY ->
      logout ls !! k = ls !! k)
  /\ logout (logout ls) = logout ls
  /\ StorageService.getHeaders
       (login STATIC_EMAIL STATIC_PASS now ls).2 !! "Authorization"
     = Some ("Bearer static_admin_token_"
             ++ JSText.numberToString now)%string
  /\ logout (login STATIC_EMAIL STATIC_PASS now ls).2 = logout ls.
Proof.
  assert (Htok : getAuthToken (logout ls) = None).
  { unfold getAuthToken, logout.
    rewrite lookup_delete_ne by discriminate. apply lookup_delete_eq. }
  split; [exact Htok |]. split; [| split; [| split; [| split; [| split]]]].
  - unfold getCurrentUser, logout. rewrite lookup_delete_eq. reflexivity.
  - rewrite authorization_header, Htok. reflexivity.
  - intros k H1 H2. unfold logout.
    rewrite !lookup_delete_ne by congruence. reflexivity.
  - unfold logout. apply map_eq. intros k.
    destruct (decide (k = USER_KEY)) as [-> | H2];
      [rewrite !lookup_delete_eq; reflexivity |].
    destruct (decide (k = TOKEN_KEY)) as [-> | H1].
    + rewrite !(lookup_delete_ne _ USER_KEY) by discriminate.
      rewrite !lookup_delete_eq. reflexivity.
    + rewrite !lookup_delete_ne by congruence. reflexivity.
  - rewrite authorization_header. unfold getAuthToken, login.
    rewrite !String.eqb_refl. cbn [andb snd].
    rewrite lookup_insert_ne by discriminate. rewrite lookup_insert_eq.
    reflexivity.
  - unfold logout, login. rewrite !String.eqb_refl. cbn [andb snd].
    apply map_eq. intros k.
    destruct (decide (k = USER_KEY)) as [-> | H2];
      [rewrite !lookup_delete_eq; reflexivity |].
    destruct (decide (k = TOKEN_KEY)) as [-> | H1].
    + rewrite !(lookup_delete_ne _ USER_KEY) by discriminate.
      rewrite !lookup_delete_eq. reflexivity.
    + rewrite !lookup_delete_ne, !lookup_insert_ne by congruence.
      reflexivity.
Qed.

End Session.

(** * Records on the wire *)

Module Wire.

Import StorageService.






(** X16.  [mapToFrontend] returns [null] for [null]; otherwise it drops
    [_id], keeps every other property, and sets [id]: to the [id] the data
    already has, even when an [_id] is present too, and otherwise to the
    [_id] if that is truthy.  Mapping twice is mapping once, and data that
    has an [id] and no [_id] comes back unchanged. *)
Theorem mapToFrontend_sets_id (data : object) :
  mapToFrontend None = None
  /\ exists o,
       mapToFrontend (Some data) = Some o
       /\ o !! "_id" = None
       /\ (forall k, k <> "id" -> k <> "_id" -> o !! k = data !! k)
       /\ (is_Some (data !! "id") -> o !! "id" = data !! "id")
       /\ (data !! "id" = None ->
           o !! "id"
           = Some (if truthy (get data "_id") then get data "_id"
                   else VUndefined))
       /\ mapToFrontend (Some o) = Some o
       /\ (is_Some (data !! "id") -> data !! "_id" = None -> o = data).
Proof.
  split; [reflexivity |]. eexists. split; [reflexivity |].
  assert (Hid : forall d : object,
            is_Some (d !! "id") ->
            (delete "_id" d ∪ {["id" := orElse (get d "_id") (get d "id")]})
              !! "id" = d !! "id").
  { intros d [v Hv]. rewrite Hv. apply lookup_union_Some_l.
    rewrite lookup_delete_ne by discriminate. exact Hv. }
  assert (Hno : forall d : object,
            (delete "_id" d ∪ {["id" := orElse (get d "_id") (get d "id")]})
              !! "_id" = None).
  { intros d. apply lookup_union_None. split; [apply lookup_delete_eq |].
    apply lookup_singleton_ne. discriminate. }
  assert (Hother : forall (d : object) k, k <> "id" -> k <> "_id" ->
            (delete "_id" d ∪ {["id" := orElse (get d "_id") (get d "id")]})
              !! k = d !! k).
  { intros d k H1 H2. rewrite lookup_union_l.
    - apply lookup_delete_ne. congruence.
    - apply lookup_singleton_ne. congruence. }
  assert (Hsame : forall d : object,
            is_Some (d !! "id") -> d !! "_id" = None ->
            delete "_id" d ∪ {["id" := orElse (get d "_id") (get d "id")]}
            = d).
  { intros d Hd Hn. apply map_eq. intros k.
    destruct (decide (k = "id")) as [-> | H1]; [apply Hid, Hd |].
    destruct (decide (k = "_id")) as [-> | H2];
      [rewrite Hno, Hn; reflexivity |].
    apply Hother; assumption. }
  split; [apply Hno |]. split; [apply Hother |]. split; [apply Hid |].
  split; [| split].
  - intros Hn. rewrite lookup_union_r.
    + rewrite lookup_singleton_eq. unfold orElse, get at 3. rewrite Hn.
      reflexivity.
    + rewrite lookup_delete_ne by discriminate. exact Hn.
  - cbn [mapToFrontend]. f_equal. apply Hsame; [| apply Hno].
    destruct (data !! "id") as [v |] eqn:Hd.
    + rewrite Hid; [eauto | rewrite Hd; eauto].
    + rewrite lookup_union_r.
      * rewrite lookup_singleton_eq. eauto.
      * rewrite lookup_delete_ne by discriminate. exact Hd.
  - apply Hsame.
Qed.









End Wire.

(** * Navigation *)

Module Navigation.

Import App.

Lemma loadData_keeps (answer : option (list WeeklyRecord)) (st : state) :
  view (loadData answer st) = view st
  /\ activeRecord (loadData answer st) = activeRecord st
  /\ user (loadData answer st) = user st.
Proof. destruct answer; repeat split; reflexivity. Qed.

Lemma step_keeps_invariant (st : state) (e : event) :
  regular e -> salesViewHasRecord st -> salesViewHasRecord (step st e).
Proof.
  unfold salesViewHasRecord. intros Hreg Hinv.
  destruct e as [[u |] answer | u answer | | answer | v | [[r |] |] answer
                | [] answer | [] answer | | | r | r];
    cbn [step regular] in *; try contradiction; try discriminate;
    try (destruct answer; cbn; assumption);
    try (cbn; intros _; discriminate);
    try (cbn; exact Hinv).
  - destruct Hreg as [-> | ->]; cbn; discriminate.
  - unfold startSalesEntry.
    destruct (List.find _ (records st)); cbn; discriminate.
  - unfold handleEdit. destruct (isSalesEntryComplete r); cbn; discriminate.
Qed.

Lemma run_keeps_invariant (events : list event) :
  forall st,
    Forall regular events -> salesViewHasRecord st ->
    salesViewHasRecord (fold_left step events st).
Proof.
  induction events as [| e events IH]; intros st Hreg Hinv; [exact Hinv |].
  apply Forall_cons in Hreg as [He Hreg]. cbn [fold_left].
  apply IH; [exact Hreg |]. apply step_keeps_invariant; assumption.
Qed.

(** X18.  As long as the server never answers a purchase save with [null],
    no sequence of events leaves the application on an empty page: the
    sales view is only ever selected together with a record to show.  When
    the server does answer a save with [null], which [mapToFrontend] passes
    on, the page after the save is empty. *)
Theorem sales_view_is_never_empty :
  (forall events,
     Forall regular events ->
     render (fold_left step events initial) <> Nothing)
  /\ (forall st u data,
        user st = Some u ->
        render (step st (SavePurchase (Some None) (Some data))) = Nothing).
Proof.
  split.
  - intros events Hreg.
    assert (Hinv : salesViewHasRecord (fold_left step events initial)).
    { apply run_keeps_invariant; [exact Hreg |]. intros H. discriminate. }
    unfold render, salesViewHasRecord in *.
    destruct (user _); [| discriminate].
    destruct (loading _); [discriminate |].
    destruct (error _); [discriminate |].
    destruct (view _); try discriminate.
    destruct (activeRecord _); [discriminate |].
    intros _. apply Hinv; reflexivity.
  - intros st u data Hu. cbn. rewrite Hu. reflexivity.
Qed.

Lemma sales_view_is_never_empty_witness :
  let st :=
    fold_left step
      [Mount None None;
       LoginSuccess
         (AuthService.mkUser "admin_user" "Administrator"
            "admin@sundayschicken.com" None)
         (Some [Examples.purchaseOnly]);
       StartSalesEntry]
      initial in
  render st = SalesScreen Examples.purchaseOnly /\ render st <> Nothing.
Proof.
  split; [reflexivity |].
  apply (proj1 sales_view_is_never_empty).
  repeat constructor.
Defined.

Lemma find_first (A : Type) (p : A -> bool) (l1 l2 : list A) (x : A) :
  Forall (fun y => p y = false) l1 -> p x = true ->
  List.find p (l1 ++ x :: l2) = Some x.
Proof.
  intros Hl1 Hx. induction Hl1 as [| y l1 Hy _ IH]; cbn.
  - rewrite Hx. reflexivity.
  - rewrite Hy. exact IH.
Qed.

Lemma find_none_all (A : Type) (p : A -> bool) (l : list A) :
  Forall (fun y => p y = false) l -> List.find p l = None.
Proof.
  intros Hl. induction Hl as [| y l Hy _ IH]; cbn; [reflexivity |].
  rewrite Hy. exact IH.
Qed.

(** X19.  The entry points open the right form.  [startSalesEntry] opens
    the sales form on the first pending record of the list, without an
    alert; when every record is complete it shows the alert and opens the
    purchase form, on whatever record was active before: after editing a
    record and going back to the dashboard, that is the purchase form on
    the record edited, not an empty one.  [handleEdit] opens the sales
    form on a completed record and the purchase form on a pending one;
    [startPurchaseEntry] opens an empty purchase form. *)
Theorem entry_points_open_the_right_form (st : state) :
  (forall l1 r l2,
     records st = l1 ++ r :: l2 ->
     Forall (fun y => isSalesEntryComplete y = true) l1 ->
     isSalesEntryComplete r = false ->
     startSalesEntry st
     = (setView ENTRY_SALES (setActiveRecord (Some r) st), None)
     /\ (ready st -> render (startSalesEntry st).1 = SalesScreen r))
  /\ (Forall (fun y => isSalesEntryComplete y = true) (records st) ->
      is_Some (startSalesEntry st).2
      /\ (ready st ->
          render (startSalesEntry st).1 = PurchaseScreen (activeRecord st))
      /\ (forall r,
            ready st ->
            render (step (step (step st (Edit r)) (Navigate DASHBOARD))
                      StartSalesEntry)
            = PurchaseScreen (Some r)))
  /\ (forall r,
        ready st ->
        render (handleEdit r st)
        = if isSalesEntryComplete r then SalesScreen r
          else PurchaseScreen (Some r))
  /\ (ready st -> render (startPurchaseEntry st) = PurchaseScreen None).
Proof.
  assert (Hready : forall st', ready st' ->
            exists u, user st' = Some u /\ loading st' = false
                      /\ error st' = None).
  { intros st' (Hu & Hl & He). destruct (user st') as [u |];
      [eauto | contradiction]. }
  split; [| split; [| split]].
  - intros l1 r l2 Hrec Hl1 Hr.
    assert (Hfind : List.find (fun y => negb (isSalesEntryComplete y))
                      (records st) = Some r).
    { rewrite Hrec. apply find_first; [| rewrite Hr; reflexivity].
      eapply Forall_impl; [exact Hl1 |]. cbn. intros y ->. reflexivity. }
    unfold startSalesEntry. rewrite Hfind. split; [reflexivity |].
    intros (u & Hu & Hl & He)%Hready. unfold render. cbn.
    rewrite Hu, Hl, He. reflexivity.
  - intros Hall.
    assert (Hfind : forall recs,
              Forall (fun y => isSalesEntryComplete y = true) recs ->
              List.find (fun y => negb (isSalesEntryComplete y)) recs = None).
    { intros recs H. apply find_none_all.
      eapply Forall_impl; [exact H |]. cbn. intros y ->. reflexivity. }
    unfold startSalesEntry. rewrite (Hfind _ Hall). cbn [fst snd].
    split; [eauto |]. split.
    + intros (u & Hu & Hl & He)%Hready. unfold render. cbn.
      rewrite Hu, Hl, He. reflexivity.
    + intros r (u & Hu & Hl & He)%Hready. cbn [step].
      unfold startSalesEntry, handleEdit.
      destruct (isSalesEntryComplete r); cbn; rewrite (Hfind _ Hall);
        unfold render; cbn; rewrite Hu, Hl, He; reflexivity.
  - intros r (u & Hu & Hl & He)%Hready. unfold handleEdit, render.
    destruct (isSalesEntryComplete r); cbn; rewrite Hu, Hl, He; reflexivity.
  - intros (u & Hu & Hl & He)%Hready. unfold render. cbn.
    rewrite Hu, Hl, He. reflexivity.
Qed.

End Navigation.

(** * Week dates as text *)

Module Dates.

Import PurchaseView.

Lemma ascii_compare_trans_lt (a b c : ascii) :
  Ascii.compare a b = Lt -> Ascii.compare b c = Lt -> Ascii.compare a c = Lt.
Proof.
  unfold Ascii.compare. rewrite !N.compare_lt_iff. apply N.lt_trans.
Qed.

Lemma ascii_compare_refl (a : ascii) : Ascii.compare a a = Eq.
Proof. unfold Ascii.compare. apply N.compare_refl. Qed.

Lemma string_compare_trans_lt (a : string) :
  forall b c,
    String.compare a b = Lt -> String.compare b c = Lt ->
    String.compare a c = Lt.
Proof.
  induction a as [| x a IH]; intros [| y b] [| z c]; cbn;
    try discriminate; try reflexivity.
  destruct (Ascii.compare x y) eqn:Hxy; try discriminate;
    destruct (Ascii.compare y z) eqn:Hyz; try discriminate; intros H1 H2.
  - apply Ascii.compare_eq_iff in Hxy, Hyz. subst.
    rewrite ascii_compare_refl. eapply IH; eassumption.
  - apply Ascii.compare_eq_iff in Hxy. subst. rewrite Hyz. reflexivity.
  - apply Ascii.compare_eq_iff in Hyz. subst. rewrite Hxy. reflexivity.
  - rewrite (ascii_compare_trans_lt _ _ _ Hxy Hyz). reflexivity.
Qed.

Lemma string_compare_refl (a : string) : String.compare a a = Eq.
Proof.
  induction a as [| x a IH]; cbn; [reflexivity |].
  rewrite ascii_compare_refl. exact IH.
Qed.

(** Texts of equal length in front decide the comparison unless equal. *)
Lemma string_compare_app (a : string) :
  forall b s t,
    String.length a = String.length b ->
    String.compare (a ++ s) (b ++ t)
    = match String.compare a b with
      | Eq => String.compare s t
      | c => c
      end.
Proof.
  induction a as [| x a IH]; intros [| y b] s t Hlen;
    cbn [String.length] in Hlen; try discriminate; [reflexivity |].
  change (String x a ++ s)%string with (String x (a ++ s))%string.
  change (String y b ++ t)%string with (String y (b ++ t))%string.
  cbn [String.compare].
  destruct (Ascii.compare x y); try reflexivity.
  apply IH. lia.
Qed.

(** A text that grows at every step of a range grows along the range. *)
Lemma monotone_from_steps (f : N -> string) (lo : N) (n : nat) :
  (forall k, (k < n)%nat ->
     String.compare (f (lo + N.of_nat k)%N) (f (lo + N.of_nat (S k))%N) = Lt) ->
  forall i j, (i < j <= n)%nat ->
    String.compare (f (lo + N.of_nat i)%N) (f (lo + N.of_nat j)%N) = Lt.
Proof.
  intros Hstep i j. revert i. induction j as [| j IH]; intros i Hij; [lia |].
  destruct (Nat.eq_dec i j) as [-> | Hne].
  - apply Hstep. lia.
  - eapply string_compare_trans_lt; [apply IH; lia | apply Hstep; lia].
Qed.

Lemma compare_from_steps (f : N -> string) (lo : N) (n : nat) :
  (forall k, (k < n)%nat ->
     String.compare (f (lo + N.of_nat k)%N) (f (lo + N.of_nat (S k))%N) = Lt) ->
  forall a b, (lo <= a <= lo + N.of_nat n)%N -> (lo <= b <= lo + N.of_nat n)%N ->
    String.compare (f a) (f b) = (a ?= b)%N.
Proof.
  intros Hstep a b Ha Hb.
  replace a with (lo + N.of_nat (N.to_nat (a - lo)))%N by lia.
  replace b with (lo + N.of_nat (N.to_nat (b - lo)))%N by lia.
  set (i := N.to_nat (a - lo)). set (j := N.to_nat (b - lo)).
  assert (Hi : (i <= n)%nat) by lia. assert (Hj : (j <= n)%nat) by lia.
  destruct (lt_eq_lt_dec i j) as [[Hlt | ->] | Hgt].
  - rewrite (monotone_from_steps f lo n Hstep i j) by lia.
    symmetry. apply N.compare_lt_iff. lia.
  - rewrite string_compare_refl, N.compare_refl. reflexivity.
  - rewrite String.compare_antisym,
      (monotone_from_steps f lo n Hstep j i) by lia.
    symmetry. apply N.compare_gt_iff. lia.
Qed.

Lemma steps_ok_spec (f : N -> string) (width : nat) (lo : N) (n : nat) :
  steps_ok f width lo n = true ->
  (forall a, (lo <= a <= lo + N.of_nat n)%N -> String.length (f a) = width)
  /\ (forall a b, (lo <= a <= lo + N.of_nat n)%N ->
        (lo <= b <= lo + N.of_nat n)%N ->
        String.compare (f a) (f b) = (a ?= b)%N).
Proof.
  unfold steps_ok. rewrite forallb_forall. intros H.
  assert (Hk : forall k, (k <= n)%nat ->
            String.length (f (lo + N.of_nat k)%N) = width
            /\ ((k < n)%nat ->
                String.compare (f (lo + N.of_nat k)%N)
                  (f (lo + N.of_nat (S k))%N) = Lt)).
  { intros k Hle. specialize (H k ltac:(apply in_seq; lia)).
    apply andb_prop in H as [H1 H2]. apply Nat.eqb_eq in H1.
    split; [exact H1 |]. intros Hlt.
    destruct (String.compare _ _); try reflexivity;
      apply Nat.eqb_eq in H2; lia. }
  split.
  - intros a Ha.
    replace a with (lo + N.of_nat (N.to_nat (a - lo)))%N by lia.
    apply Hk. lia.
  - apply compare_from_steps. intros k Hlt. apply Hk; lia.
Qed.

Lemma years_checked : steps_ok yearText 4 1000 (N.to_nat 8999) = true.
Proof. vm_compute. reflexivity. Qed.

Lemma months_checked : steps_ok monthText 2 0 11 = true.
Proof. vm_compute. reflexivity. Qed.

Lemma days_checked : steps_ok dayText 2 1 30 = true.
Proof. vm_compute. reflexivity. Qed.

Lemma getTodayDate_parts (y m d : N) :
  getTodayDate y m d
  = (yearText y ++ String "-" (monthText m ++ String "-" (dayText d)))%string.
Proof. reflexivity. Qed.

Lemma length_app (a b : string) :
  String.length (a ++ b) = (String.length a + String.length b)%nat.
Proof.
  induction a as [| x a IH]; [reflexivity |].
  change (String x a ++ b)%string with (String x (a ++ b))%string.
  cbn [String.length]. rewrite IH. reflexivity.
Qed.

Lemma compare_today_dates (y1 m1 d1 y2 m2 d2 : N) :
  calendar y1 m1 d1 -> calendar y2 m2 d2 ->
  String.compare (getTodayDate y1 m1 d1) (getTodayDate y2 m2 d2)
  = compareDates y1 m1 d1 y2 m2 d2.
Proof.
  intros (Hy1 & Hm1 & Hd1) (Hy2 & Hm2 & Hd2).
  destruct (steps_ok_spec _ _ _ _ years_checked) as [Lyear Cyear].
  destruct (steps_ok_spec _ _ _ _ months_checked) as [Lmonth Cmonth].
  destruct (steps_ok_spec _ _ _ _ days_checked) as [Lday Cday].
  rewrite !getTodayDate_parts. unfold compareDates.
  rewrite string_compare_app by (rewrite !Lyear by lia; reflexivity).
  rewrite Cyear by lia. destruct (y1 ?= y2)%N; try reflexivity.
  cbn [String.compare]. rewrite ascii_compare_refl.
  rewrite string_compare_app by (rewrite !Lmonth by lia; reflexivity).
  rewrite Cmonth by lia. destruct (m1 ?= m2)%N; try reflexivity.
  cbn [String.compare]. rewrite ascii_compare_refl.
  apply Cday; lia.
Qed.

Lemma today_not_empty (y m d : N) : getTodayDate y m d <> "".
Proof.
  rewrite getTodayDate_parts. destruct (yearText y) as [| c t]; discriminate.
Qed.

Lemma today_strEmpty (y m d : N) : JS.strEmpty (getTodayDate y m d) = false.
Proof. apply bool_decide_eq_false, today_not_empty. Qed.

(** X20.  [getTodayDate] never returns an empty text, so the date check of
    the purchase form passes on the default date.  For calendar dates with
    a four-digit year it returns ten characters, and these texts are
    ordered as the dates are: comparing two week dates as text, as the
    history filter does, compares the days. *)
Theorem today_dates_order_as_dates :
  (forall y m d, getTodayDate y m d <> "")
  /\ (forall y1 m1 d1 y2 m2 d2,
        calendar y1 m1 d1 -> calendar y2 m2 d2 ->
        String.length (getTodayDate y1 m1 d1) = 10%nat
        /\ String.compare (getTodayDate y1 m1 d1) (getTodayDate y2 m2 d2)
           = compareDates y1 m1 d1 y2 m2 d2
        /\ (JSText.strLt (getTodayDate y1 m1 d1) (getTodayDate y2 m2 d2)
            = true
            <-> compareDates y1 m1 d1 y2 m2 d2 = Lt)
        /\ (getTodayDate y1 m1 d1 = getTodayDate y2 m2 d2
            <-> y1 = y2 /\ m1 = m2 /\ d1 = d2)).
Proof.
  split; [apply today_not_empty |].
  intros y1 m1 d1 y2 m2 d2 H1 H2.
  pose proof (compare_today_dates _ _ _ _ _ _ H1 H2) as Hc.
  destruct H1 as (Hy1 & Hm1 & Hd1).
  destruct (steps_ok_spec _ _ _ _ years_checked) as [Lyear _].
  destruct (steps_ok_spec _ _ _ _ months_checked) as [Lmonth _].
  destruct (steps_ok_spec _ _ _ _ days_checked) as [Lday _].
  assert (Hlen : String.length (getTodayDate y1 m1 d1) = 10%nat).
  { rewrite getTodayDate_parts, length_app. cbn [String.length].
    rewrite length_app. cbn [String.length].
    rewrite Lyear, Lmonth, Lday by lia. reflexivity. }
  split; [exact Hlen |]. split; [exact Hc |]. split.
  - unfold JSText.strLt, String.ltb. rewrite Hc.
    destruct (compareDates _ _ _ _ _ _); split; congruence.
  - split.
    + intros E. rewrite E, string_compare_refl in Hc. symmetry in Hc.
      unfold compareDates in Hc.
      destruct (N.compare_spec y1 y2); try discriminate.
      destruct (N.compare_spec m1 m2); try discriminate.
      destruct (N.compare_spec d1 d2); try discriminate. auto.
    + intros (-> & -> & ->). reflexivity.
Qed.

Lemma today_dates_order_as_dates_witness :
  calendar 2025 0 4 /\ calendar 2025 0 10
  /\ getTodayDate 2025 0 4 = "2025-01-04"
  /\ JSText.strLt (getTodayDate 2025 0 4) (getTodayDate 2025 0 10) = true.
Proof.
  assert (H1 : calendar 2025 0 4) by (unfold calendar; lia).
  assert (H2 : calendar 2025 0 10) by (unfold calendar; lia).
  split; [exact H1 |]. split; [exact H2 |]. split; [reflexivity |].
  destruct (proj2 today_dates_order_as_dates _ _ _ _ _ _ H1 H2)
    as (_ & _ & Hlt & _).
  apply Hlt. reflexivity.
Defined.

(** X21.  With week dates written as [getTodayDate] writes them, the date
    range of the history keeps exactly the records from the start date to
    the end date, both included; an empty bound does not restrict. *)
Theorem date_range_keeps_the_days_between (Number : string -> float)
    (r : WeeklyRecord) (y m d ys ms ds ye me de : N) :
  calendar y m d -> calendar ys ms ds -> calendar ye me de ->
  weekDate r = getTodayDate y m d ->
  (History.keeps Number
     (History.mkFilters "all" (getTodayDate ys ms ds)
        (getTodayDate ye me de) "") r = true
   <-> compareDates ys ms ds y m d <> Gt /\ compareDates y m d ye me de <> Gt)
  /\ (History.keeps Number
        (History.mkFilters "all" (getTodayDate ys ms ds) "" "") r = true
      <-> compareDates ys ms ds y m d <> Gt)
  /\ (History.keeps Number
        (History.mkFilters "all" "" (getTodayDate ye me de) "") r = true
      <-> compareDates y m d ye me de <> Gt).
Proof.
  intros H Hs He Hr.
  pose proof (compare_today_dates _ _ _ _ _ _ H Hs) as C1.
  pose proof (compare_today_dates _ _ _ _ _ _ He H) as C2.
  pose proof (compare_today_dates _ _ _ _ _ _ Hs H) as C3.
  pose proof (compare_today_dates _ _ _ _ _ _ H He) as C4.
  rewrite String.compare_antisym in C3, C4.
  pose proof (today_strEmpty ys ms ds) as Es.
  pose proof (today_strEmpty ye me de) as Ee.
  unfold History.keeps.
  cbn [History.status History.startDate History.endDate History.minProfit
       String.eqb Ascii.eqb Bool.eqb andb negb].
  rewrite Hr, Es, Ee. unfold JSText.strLt, String.ltb.
  rewrite <- C3, <- C4, C1, C2.
  replace (JS.strEmpty "") with true by reflexivity. cbn [negb andb].
  destruct (compareDates y m d ys ms ds);
    destruct (compareDates ye me de y m d);
    cbn; intuition congruence.
Qed.

Lemma date_range_keeps_the_days_between_witness :
  calendar 2025 0 4 /\ calendar 2025 0 1 /\ calendar 2025 0 31
  /\ weekDate Examples.purchaseOnly = getTodayDate 2025 0 4
  /\ History.keeps Decimal.Number
       (History.mkFilters "all" (getTodayDate 2025 0 1)
          (getTodayDate 2025 0 31) "") Examples.purchaseOnly = true.
Proof.
  assert (H : calendar 2025 0 4) by (unfold calendar; lia).
  assert (Hs : calendar 2025 0 1) by (unfold calendar; lia).
  assert (He : calendar 2025 0 31) by (unfold calendar; lia).
  split; [exact H |]. split; [exact Hs |]. split; [exact He |].
  split; [reflexivity |].
  apply (proj1 (date_range_keeps_the_days_between Decimal.Number
                  Examples.purchaseOnly _ _ _ _ _ _ _ _ _ H Hs He eq_refl)).
  split; discriminate.
Defined.

End Dates.
